(** * NBA data-warehouse pipeline: a shallow embedding and its properties

    The development follows the two source files of the repository:
    - [dags/nba_pipeline_dag.py]: the extractor, the loader with its
      column-name clean-up, the readiness check and the task chain;
    - [include/streamlit_app.py]: the dashboard's query builder and the
      top-performers query.

    Python strings are modelled as [string], integers as [Z], dictionaries
    (the inter-task channel, the temporary directory) as [gmap], SQL NULL as
    [None], and raised exceptions as the [Raise] case of a result type. *)

From Stdlib Require Import ZArith QArith Ascii DecimalString Sorting.Sorted.
From stdpp Require Import base option list strings gmap sorting.

(** ** Python's [str.replace]

    A [string] is the text in UTF-8.  Every pattern the program replaces is
    ASCII, and an ASCII byte is never part of the encoding of another
    character, so replacing in the encoded text is replacing in the text. *)

Module PyStr.

(** [s[n:]] *)
Fixpoint drop_str (n : nat) (s : string) : string :=
  match n, s with
  | O, _ => s
  | S _, EmptyString => EmptyString
  | S k, String _ s' => drop_str k s'
  end.

(** [s.startswith(p)] *)
Fixpoint startswith (p s : string) : bool :=
  match p, s with
  | EmptyString, _ => true
  | String _ _, EmptyString => false
  | String a p', String b s' => if Ascii.eqb a b then startswith p' s' else false
  end.

(** [old in s] *)
Fixpoint occurs (old s : string) : bool :=
  match s with
  | EmptyString => startswith old EmptyString
  | String _ s' => startswith old s || occurs old s'
  end.

(** [c in s] for a single character. *)
Fixpoint has_char (c : ascii) (s : string) : bool :=
  match s with
  | EmptyString => false
  | String b s' => Ascii.eqb c b || has_char c s'
  end.

(** The scan of [str.replace] for a pattern that is not empty: occurrences
    are found from the left and do not overlap.  [skip] counts the characters
    of a matched occurrence that are still to be passed over. *)
Fixpoint replace_scan (old new : string) (skip : nat) (s : string) : string :=
  match s with
  | EmptyString => EmptyString
  | String c s' =>
      match skip with
      | S k => replace_scan old new k s'
      | O =>
          if startswith old s
          then new +:+ replace_scan old new (String.length old - 1) s'
          else String c (replace_scan old new 0 s')
      end
  end.

(** With an empty pattern Python puts [new] before every character and at
    the end. *)
Fixpoint intersperse (new s : string) : string :=
  match s with
  | EmptyString => new
  | String c s' => new +:+ String c (intersperse new s')
  end.

(** [s.replace(old, new)] *)
Definition replace (old new s : string) : string :=
  match old with
  | EmptyString => intersperse new s
  | String _ _ => replace_scan old new 0 s
  end.

(** [s.count(c)] for a single character. *)
Fixpoint count_char (c : ascii) (s : string) : nat :=
  match s with
  | EmptyString => 0
  | String b s' => (if Ascii.eqb c b then 1 else 0) + count_char c s'
  end.

(** [guarded old x y s]: wherever the two characters [x y] stand in [s], an
    occurrence of [old] starts.  It holds when [old] is [x y] itself, and
    when [x y] does not occur in [s] at all. *)
Definition guarded (old : string) (x y : ascii) (s : string) : Prop :=
  ∀ j, startswith (String x (String y EmptyString)) (drop_str j s) = true →
       startswith old (drop_str j s) = true.

End PyStr.

(** ** Python values and outcomes *)

Module Py.

(** The values that travel between tasks and into the dashboard's filters. *)
Inductive value :=
  | PyNone
  | PyBool (b : bool)
  | PyInt (n : Z)
  | PyStr (s : string).

Global Instance value_eq_dec : EqDecision value.
Proof. solve_decision. Defined.

(** A call returns a value or raises an exception (here: its message). *)
Inductive result (A : Type) :=
  | Return (a : A)
  | Raise (exn : string).
Global Arguments Return {A} a.
Global Arguments Raise {A} exn.

(** [str(n)] for an integer. *)
Definition str_of_int (n : Z) : string := NilEmpty.string_of_int (Z.to_int n).

(** [str(v)], the text an f-string puts for [{v}]. *)
Definition str (v : value) : string :=
  match v with
  | PyNone => "None"
  | PyBool true => "True"
  | PyBool false => "False"
  | PyInt n => str_of_int n
  | PyStr s => s
  end.

(** [datetime]: a reading of the wall clock. *)
Record datetime := {
  year : Z; month : Z; day : Z;
  hour : Z; minute : Z; second : Z; microsecond : Z
}.

(** The fields are in the ranges of a [datetime] whose year has four digits. *)
Definition valid_datetime (t : datetime) : Prop :=
  (1000 ≤ year t ≤ 9999 ∧ 1 ≤ month t ≤ 12 ∧ 1 ≤ day t ≤ 31
   ∧ 0 ≤ hour t ≤ 23 ∧ 0 ≤ minute t ≤ 59 ∧ 0 ≤ second t ≤ 59
   ∧ 0 ≤ microsecond t ≤ 999999)%Z.

(** The last decimal digit of [n], as a character. *)
Definition digit (n : Z) : ascii := ascii_of_nat (48 + Z.to_nat (n mod 10)).

(** Two and four decimal digits, zero-padded ([%m], [%d], [%H], [%M], [%S];
    [%Y] for a year of four digits). *)
Definition pad2 (n : Z) : string :=
  String (digit (n / 10)) (String (digit n) EmptyString).
Definition pad4 (n : Z) : string :=
  String (digit (n / 1000)) (String (digit (n / 100)) (pad2 n)).

(** [t.strftime("%Y%m%d_%H%M%S")] *)
Definition strftime_Ymd_HMS (t : datetime) : string :=
  pad4 (year t) +:+ pad2 (month t) +:+ pad2 (day t) +:+ "_"
  +:+ pad2 (hour t) +:+ pad2 (minute t) +:+ pad2 (second t).

(** The clock reading cut to whole seconds: what the format keeps. *)
Definition to_second (t : datetime) : Z * Z * Z * Z * Z * Z :=
  (year t, month t, day t, hour t, minute t, second t).

End Py.

(** ** The warehouse tables *)

Module Warehouse.

(** A row of [fact_player_season]; a column that is NULL is [None]. *)
Record fact_row := {
  season_year : option Z;
  player_name : option string;
  position : option string;
  team_code : option string;
  games_played : option Z;
  minutes_played : option Z;
  points_per_game : option Q;
  rebounds_per_game : option Q;
  assists_per_game : option Q;
  steals_per_game : option Q;
  blocks_per_game : option Q
}.

(** A row of [fact_player_season_advanced]. *)
Record advanced_row := {
  adv_season_year : option Z;
  adv_player_name : option string;
  PER : option Q;
  TS_PCT : option Q;
  WS : option Q;
  BPM : option Q;
  VORP : option Q
}.

(** A cell of a dataframe: text read from the CSV file, or a timestamp. *)
Inductive cell :=
  | Text (s : string)
  | Stamp (t : Py.datetime).

(** A dataframe, and a table loaded from one: column names and rows of cells. *)
Record dataframe := {
  df_columns : list string;
  df_rows : list (list cell)
}.

(** [SELECT COUNT( * ) FROM t] *)
Definition count_rows {A} (t : list A) : Z := Z.of_nat (length t).

(** [SELECT COUNT(DISTINCT player_name) FROM t]: NULL names are not counted. *)
Definition count_distinct_player_name (t : list fact_row) : Z :=
  Z.of_nat (length (remove_dups (omap player_name t))).

End Warehouse.

(** ** The pipeline: [dags/nba_pipeline_dag.py] *)

Module Pipeline.
Import PyStr Py Warehouse.

(** *** Column names (the clean-up of [load_to_snowflake])

    [df.columns] is the list of the column names.  The first two statements
    go through pandas' [.str.replace], which replaces every occurrence of
    the literal pattern in each name, as [str.replace] of the third one. *)

(** [df.columns.str.replace(' ', '_').str.replace('%', '_PCT').str.replace('/', '_')] *)
Definition clean_symbols (col : string) : string :=
  replace "/" "_" (replace "%" "_PCT" (replace " " "_" col)).

(** [df.columns.str.replace('3P', 'ThreeP').str.replace('2P', 'TwoP')] *)
Definition clean_digits (col : string) : string :=
  replace "2P" "TwoP" (replace "3P" "ThreeP" col).

(** [col.replace('Unnamed: 0', 'Unnamed_0')] *)
Definition clean_unnamed (col : string) : string :=
  replace "Unnamed: 0" "Unnamed_0" col.

(** The three assignments to [df.columns], in order. *)
Definition clean_columns (columns : list string) : list string :=
  let columns := clean_symbols <$> columns in
  let columns := clean_digits <$> columns in
  clean_unnamed <$> columns.

(** What the three assignments do to one column name. *)
Definition clean_column (col : string) : string :=
  clean_unnamed (clean_digits (clean_symbols col)).

(** A name the clean-up has nothing left to do on. *)
Definition settled (col : string) : bool :=
  negb (has_char " " col) && negb (has_char "%" col) && negb (has_char "/" col)
  && negb (occurs "3P" col) && negb (occurs "2P" col).

(** *** What the tasks act on *)

Record world := {
  (** the files written under [/tmp], by path *)
  tmp_files : gmap string dataframe;
  (** the inter-task channel: the return value pushed by each task id *)
  xcom : gmap string value;
  (** the statements executed through cursors, oldest first *)
  statements : list string;
  (** the tables of schema [MARMOT_FINAL] *)
  raw_nba_stats : option dataframe;
  fact_player_season : list fact_row;
  fact_player_season_advanced : list advanced_row
}.

(** A task body: it reads and changes the world and returns or raises; what
    it did before raising stays done. *)
Definition M (A : Type) : Type := world → result A * world.

Global Instance M_ret : MRet M := λ A a w, (Return a, w).
Global Instance M_bind : MBind M := λ A B k m w,
  match m w with
  | (Return a, w') => k a w'
  | (Raise exn, w') => (Raise exn, w')
  end.

Definition raise {A} (exn : string) : M A := λ w, (Raise exn, w).

(** Falling off the end of a function: it returns [None]. *)
Definition done_ok : M unit := mret ().

(** The outcome of a call that leaves the world alone. *)
Definition outcome {A} (r : result A) : M A := λ w, (r, w).

(** Reading the world. *)
Definition reading {A} (f : world → A) : M A := λ w, (Return (f w), w).

(** [df.to_csv(filename, index=False)] *)
Definition to_csv (df : dataframe) (filename : string) : M unit := λ w,
  (Return (), {| tmp_files := <[filename := df]> (tmp_files w);
                 xcom := xcom w; statements := statements w;
                 raw_nba_stats := raw_nba_stats w;
                 fact_player_season := fact_player_season w;
                 fact_player_season_advanced := fact_player_season_advanced w |}).

(** [pd.read_csv(csv_file)]: the argument must be the path of a file.  A
    file is held as the dataframe written to it; what pandas changes when it
    reads a file back (a frame without columns is refused, a repeated header
    name is renamed, the types of the cells are inferred) is not modelled,
    and the loader's properties take the frame read as it is given. *)
Definition read_csv (csv_file : value) : M dataframe := λ w,
  match csv_file with
  | PyStr path =>
      match tmp_files w !! path with
      | Some df => (Return df, w)
      | None => (Raise "FileNotFoundError", w)
      end
  | _ => (Raise "ValueError: Invalid file path or buffer object type", w)
  end.

(** [ti.xcom_pull(task_ids=task_id)]: [None] when nothing was pushed. *)
Definition xcom_pull (task_id : string) : M value := λ w,
  (Return (default PyNone (xcom w !! task_id)), w).


(** [cursor.execute(sql)] for a statement that returns no rows of interest. *)
Definition execute (sql : string) : M unit := λ w,
  (Return (), {| tmp_files := tmp_files w; xcom := xcom w;
                 statements := statements w ++ [sql];
                 raw_nba_stats := raw_nba_stats w;
                 fact_player_season := fact_player_season w;
                 fact_player_season_advanced := fact_player_season_advanced w |}).

(** [cursor.execute(sql)] then [cursor.fetchone()[0]] for a counting query
    whose answer on the tables is [answer]. *)
Definition fetch_count (sql : string) (answer : world → Z) : M Z :=
  execute sql ;; reading answer.

(** *** [extract_kaggle_data]

    [load_dataset] is what [kagglehub.load_dataset] does in this run (the
    dataframe, or the exception it raises), [now] is [datetime.now()]. *)
Definition extract_path (now : datetime) : string :=
  "/tmp/nba_stats_" +:+ strftime_Ymd_HMS now +:+ ".csv".

Definition extract_kaggle_data (load_dataset : result dataframe) (now : datetime)
  : M string :=
  df ← outcome load_dataset;
  let filename := extract_path now in
  to_csv df filename ;;
  mret filename.

(** *** [load_to_snowflake] *)

(** [df.columns = columns] *)
Definition set_columns (columns : list string) (df : dataframe) : dataframe :=
  {| df_columns := columns; df_rows := df_rows df |}.

(** [df[name] = v]: every column of that name is overwritten; without one, a
    new last column is added. *)
Definition assign_column (name : string) (v : cell) (df : dataframe) : dataframe :=
  if bool_decide (name ∈ df_columns df)
  then {| df_columns := df_columns df;
          df_rows := (λ row, zip_with (λ c x, if bool_decide (c = name) then v else x)
                                (df_columns df) row) <$> df_rows df |}
  else {| df_columns := df_columns df ++ [name];
          df_rows := (λ row, row ++ [v]) <$> df_rows df |}.

(** What [write_pandas] reports: [success, nchunks, nrows]. *)
Definition load_report : Type := bool * Z * Z.

(** A call of the driver: it changes the warehouse and reports. *)
Definition bulk_load (call : world → load_report * world) : M load_report :=
  λ w, let '(r, w') := call w in (Return r, w').

(** [write_pandas] is the warehouse driver's bulk load, with
    [auto_create_table=True, overwrite=True] into [RAW_NBA_STATS]: it is given,
    with the table it leaves and what it reports. *)
Definition load_to_snowflake
    (write_pandas : dataframe → world → load_report * world) (now : datetime)
  : M unit :=
  csv_file ← xcom_pull "extract_kaggle_data";
  df ← read_csv csv_file;
  execute "USE ROLE TRAINING_ROLE;" ;;
  execute "USE WAREHOUSE TRAINING_WH;" ;;
  execute "USE DATABASE MLDS430;" ;;
  execute "CREATE SCHEMA IF NOT EXISTS MARMOT_FINAL;" ;;
  execute "USE SCHEMA MARMOT_FINAL;" ;;
  let df := set_columns (clean_columns (df_columns df)) df in
  let df := assign_column "extraction_timestamp" (Stamp now) df in
  '(success, nchunks, nrows) ← bulk_load (write_pandas df);
  if (success : bool) then done_ok
  else raise "Failed to load data to Snowflake".

(** The world once the loader has set its session: the five statements
    executed, in order. *)
Definition load_session (w : world) : world :=
  {| tmp_files := tmp_files w; xcom := xcom w;
     statements := statements w ++
       ["USE ROLE TRAINING_ROLE;"; "USE WAREHOUSE TRAINING_WH;";
        "USE DATABASE MLDS430;";
        "CREATE SCHEMA IF NOT EXISTS MARMOT_FINAL;";
        "USE SCHEMA MARMOT_FINAL;"];
     raw_nba_stats := raw_nba_stats w;
     fact_player_season := fact_player_season w;
     fact_player_season_advanced := fact_player_season_advanced w |}.

(** *** [verify_visualization_data] *)
Definition verify_visualization_data : M bool :=
  execute "USE ROLE TRAINING_ROLE;" ;;
  execute "USE WAREHOUSE TRAINING_WH;" ;;
  execute "USE DATABASE MLDS430;" ;;
  execute "USE SCHEMA MARMOT_FINAL;" ;;
  fact_count ← fetch_count "SELECT COUNT(*) FROM fact_player_season;"
                  (λ w, count_rows (fact_player_season w));
  advanced_count ← fetch_count "SELECT COUNT(*) FROM fact_player_season_advanced;"
                  (λ w, count_rows (fact_player_season_advanced w));
  unique_players ← fetch_count "SELECT COUNT(DISTINCT player_name) FROM fact_player_season;"
                  (λ w, count_distinct_player_name (fact_player_season w));
  if (0 <? fact_count)%Z && (0 <? advanced_count)%Z
  then (mret true : M bool)
  else raise "Visualization data not ready - tables are empty".

(** The three numbers the check fetches. *)
Definition readiness_counts (w : world) : Z * Z * Z :=
  (count_rows (fact_player_season w),
   count_rows (fact_player_season_advanced w),
   count_distinct_player_name (fact_player_season w)).

(** *** The DAG *)

(** [timedelta(minutes=m)], in seconds. *)
Definition timedelta_minutes (m : Z) : Z := (60 * m)%Z.

Record task_args := {
  owner : string;
  retries : nat;
  retry_delay : Z
}.

Definition default_args : task_args :=
  {| owner := "NBA Pipeline"; retries := 2; retry_delay := timedelta_minutes 5 |}.

Record DAG := {
  dag_id : string;
  schedule : string;
  catchup : bool;
  dag_default_args : task_args;
  (** the operators created inside the [with] block, in order of creation *)
  task_ids : list string;
  (** [(a, b)]: [b] is directly downstream of [a] *)
  edges : list (string * string)
}.

(** The operators, by the variable that holds each. *)
Definition extract : string := "extract_kaggle_data".
Definition load : string := "load_to_snowflake".
Definition transform : string := "transform_with_dbt".
Definition verify_raw : string := "verify_raw_data".
Definition verify_transformed : string := "verify_transformed_data".
Definition print_raw_results_task : string := "print_raw_verification_results".
Definition print_transformed_results_task : string :=
  "print_transformed_verification_results".
Definition verify_viz : string := "verify_visualization_data".

(** [a >> b] sets [b] downstream of [a] and evaluates to [b]; the state is
    the edges set so far and the value of the expression to the left. *)
Definition rshift (acc : list (string * string) * string) (b : string)
  : list (string * string) * string :=
  (acc.1 ++ [(acc.2, b)], b).

(** [first >> t1 >> t2 >> ...] *)
Definition rshift_chain (first : string) (rest : list string) : list (string * string) :=
  (foldl rshift ([], first) rest).1.

Definition nba_pipeline_dag : DAG := {|
  dag_id := "nba_pipeline_dag";
  schedule := "@daily";
  catchup := false;
  dag_default_args := default_args;
  task_ids := [extract; load; transform; verify_raw; verify_transformed;
               print_raw_results_task; print_transformed_results_task; verify_viz];
  edges := rshift_chain extract
             [load; transform; verify_raw; print_raw_results_task;
              verify_transformed; print_transformed_results_task; verify_viz]
|}.

(** The direct predecessors and successors of a task. *)
Definition upstream (d : DAG) (t : string) : list string :=
  (filter (λ e, e.2 = t) (edges d)).*1.
Definition downstream (d : DAG) (t : string) : list string :=
  (filter (λ e, e.1 = t) (edges d)).*2.

(** The pairs of neighbours of a list: the edges of the chain through it. *)
Definition neighbours (l : list string) : list (string * string) :=
  zip l (tail l).

(** No operator overrides [retries] or [retry_delay]: each has the defaults. *)
Definition task_retries (d : DAG) (t : string) : nat := retries (dag_default_args d).
Definition task_retry_delay (d : DAG) (t : string) : Z := retry_delay (dag_default_args d).

End Pipeline.

(** ** The orchestrator *)

Module Orchestrator.
Import Pipeline.

(** Modelled from the spec: the scheduler that runs the DAG (Airflow) is not
    part of the repository's sources.  The states of a task instance. *)
Inductive task_state :=
  | Queued
  | Running
  | Succeeded
  | FailedRetrying
  | FailedTerminal.

(** Modelled from the spec: how a run ends. *)
Inductive run_state :=
  | RunSucceeded
  | RunFailed.

(** Modelled from the spec: one attempt of a task, from [Running] to the
    state it ends in, with the times (in seconds) it starts and ends at. *)
Record attempt := {
  att_task : string;
  att_try : nat;
  att_start : Z;
  att_end : Z;
  att_state : task_state
}.

(** What the task bodies do in a run: whether try [n] of a task succeeds,
    and how long it takes. *)
Record behaviour := {
  succeeds : string → nat → bool;
  duration : string → nat → Z
}.

(** Modelled from the spec: on failure a task retries up to a fixed retry
    budget with a fixed delay between the end of a try and the start of the
    next; exhausting the budget is the terminal failure.  The result is the
    attempts made, whether the task succeeded, and the time it ended. *)
Fixpoint run_task (b : behaviour) (budget : nat) (delay : Z)
    (t : string) (try : nat) (start : Z) : list attempt * bool * Z :=
  let stop := (start + duration b t try)%Z in
  let this (st : task_state) :=
    {| att_task := t; att_try := try; att_start := start; att_end := stop;
       att_state := st |} in
  if succeeds b t try then ([this Succeeded], true, stop)
  else match budget with
       | O => ([this FailedTerminal], false, stop)
       | S budget' =>
           let '(log, ok, fin) :=
             run_task b budget' delay t (S try) (stop + delay)%Z in
           (this FailedRetrying :: log, ok, fin)
       end.

(** Modelled from the spec: a task goes from queued to running once all its
    upstream tasks have succeeded. *)
Definition ready (d : DAG) (succeeded : list string) (t : string) : bool :=
  bool_decide (t ∉ succeeded)
  && forallb (λ u, bool_decide (u ∈ succeeded)) (upstream d t).

(** Modelled from the spec: the run takes the ready tasks one at a time; a
    terminal failure marks the whole run failed and halts what is
    downstream.  [fuel] bounds the number of tasks taken. *)
Fixpoint run_loop (fuel : nat) (d : DAG) (b : behaviour)
    (succeeded : list string) (now : Z) : list attempt * run_state :=
  match fuel with
  | O => ([], RunSucceeded)
  | S fuel' =>
      match List.find (ready d succeeded) (task_ids d) with
      | None => ([], RunSucceeded)
      | Some t =>
          let '(log, ok, fin) :=
            run_task b (task_retries d t) (task_retry_delay d t) t 1 now in
          if ok
          then let '(rest, st) := run_loop fuel' d b (t :: succeeded) fin in
               (log ++ rest, st)
          else (log, RunFailed)
      end
  end.

(** One run of the DAG, started at [now]. *)
Definition run_dag (d : DAG) (b : behaviour) (now : Z) : list attempt * run_state :=
  run_loop (length (task_ids d)) d b [] now.

End Orchestrator.

(** ** The dashboard: [include/streamlit_app.py] *)

Module Dashboard.
Import Py Warehouse.

(** *** The query texts *)

(** A triple-quoted literal, given by its lines. *)
Definition newline : string := String (ascii_of_nat 10) EmptyString.
Definition text_of_lines (lines : list string) : string :=
  String.concat newline lines.

Definition base_query_text : string :=
  text_of_lines
    [
     "";
     "        SELECT ";
     "            f.season_year,";
     "            f.player_name,";
     "            f.position,";
     "            f.team_code,";
     "            f.games_played,";
     "            f.minutes_played,";
     "            f.points_per_game,";
     "            f.rebounds_per_game,";
     "            f.assists_per_game,";
     "            f.steals_per_game,";
     "            f.blocks_per_game,";
     "            a.PER as player_efficiency_rating,";
     "            a.TS_PCT as true_shooting_pct,";
     "            a.WS as win_shares,";
     "            a.BPM as box_plus_minus,";
     "            a.VORP as value_over_replacement_player";
     "        FROM fact_player_season f";
     "        LEFT JOIN fact_player_season_advanced a";
     "            ON f.season_year = a.season_year ";
     "            AND f.player_name = a.player_name";
     "        WHERE 1=1";
     "    "
    ].

(** [build_query()]: [selected_season] is ["All"] or one of the season years
    fetched from the warehouse, [selected_player] is ["All"] or a name. *)
Definition build_query (selected_season : value) (selected_player : string) : string :=
  let base_query := base_query_text in
  let base_query :=
    if bool_decide (selected_season ≠ PyStr "All")
    then base_query +:+ " AND f.season_year = " +:+ str selected_season
    else base_query in
  let base_query :=
    if bool_decide (selected_player ≠ "All")
    then base_query +:+ " AND f.player_name = '" +:+ selected_player +:+ "'"
    else base_query in
  let base_query :=
    base_query +:+ " ORDER BY f.season_year DESC, f.points_per_game DESC" in
  base_query.

(** What [build_query] appends last. *)
Definition order_text : string :=
  " ORDER BY f.season_year DESC, f.points_per_game DESC".

(** The text the third tab executes. *)
Definition top_performers_text : string :=
  text_of_lines
    [
     "";
     "            SELECT ";
     "                f.player_name,";
     "                f.season_year,";
     "                f.points_per_game,";
     "                f.rebounds_per_game,";
     "                f.assists_per_game,";
     "                a.PER as player_efficiency_rating,";
     "                a.WS as win_shares,";
     "                a.VORP as value_over_replacement_player";
     "            FROM fact_player_season f";
     "            LEFT JOIN fact_player_season_advanced a";
     "                ON f.season_year = a.season_year ";
     "                AND f.player_name = a.player_name";
     "            ORDER BY value_over_replacement_player DESC";
     "            LIMIT 20";
     "        "
    ].

(** *** What the texts ask for *)

(** The two conditions [build_query] can append to [WHERE 1=1]. *)
Record filters := {
  season_filter : option Z;
  player_filter : option string
}.

(** The conditions as SQL text, the way [build_query] writes them. *)
Definition filters_text (flt : filters) : string :=
  match season_filter flt with
  | Some y => " AND f.season_year = " +:+ str_of_int y
  | None => EmptyString
  end +:+
  match player_filter flt with
  | Some p => " AND f.player_name = '" +:+ p +:+ "'"
  | None => EmptyString
  end.

(** The conditions a selection stands for.  A season that is an integer is
    a number literal, and a name without a quote is a string literal; for
    other selections the appended text is not a comparison with a literal. *)
Definition selected_filters (selected_season : value) (selected_player : string)
  : option filters :=
  season ← (if bool_decide (selected_season = PyStr "All") then Some None
            else match selected_season with
                 | PyInt y => Some (Some y)
                 | _ => None
                 end);
  player ← (if bool_decide (selected_player = "All") then Some None
            else if PyStr.has_char "'" selected_player then None
            else Some (Some selected_player));
  Some {| season_filter := season; player_filter := player |}.

(** A row of [f LEFT JOIN a]: the fact row with the advanced row matched to
    it, or with none (all of [a]'s columns NULL). *)
Definition joined : Type := fact_row * option advanced_row.

(** SQL [x = y]: true only when neither side is NULL and they are equal. *)
Definition sql_eq {A} `{EqDecision A} (x y : option A) : bool :=
  match x, y with
  | Some a, Some b => bool_decide (a = b)
  | _, _ => false
  end.

(** [ON f.season_year = a.season_year AND f.player_name = a.player_name] *)
Definition on_key (f : fact_row) (a : advanced_row) : bool :=
  sql_eq (season_year f) (adv_season_year a)
  && sql_eq (player_name f) (adv_player_name a).

Definition left_join (fact : list fact_row) (advanced : list advanced_row)
  : list joined :=
  f ← fact;
  match List.filter (on_key f) advanced with
  | [] => [(f, None)]
  | matches => (λ a, (f, Some a)) <$> matches
  end.

(** A column of [a] in a joined row. *)
Definition a_col {A} (col : advanced_row → option A) (r : joined) : option A :=
  r.2 ≫= col.

(** [WHERE 1=1 AND ...]: a row passes when every condition is true. *)
Definition where_clause (flt : filters) (r : joined) : bool :=
  true
  && match season_filter flt with
     | Some y => sql_eq (season_year r.1) (Some y)
     | None => true
     end
  && match player_filter flt with
     | Some p => sql_eq (player_name r.1) (Some p)
     | None => true
     end.

(** [ORDER BY x DESC]: [x] may stand before [y].  Where the NULLs go is the
    engine's setting: first ([nulls_first], Snowflake's default for DESC) or
    last. *)
Definition desc_le {A} (le : A → A → bool) (nulls_first : bool) (x y : option A)
  : bool :=
  match x, y with
  | None, None => true
  | None, Some _ => nulls_first
  | Some _, None => negb nulls_first
  | Some a, Some b => le b a
  end.

(** [ORDER BY k1, k2]: by the first key, and by the second among rows the
    first key does not tell apart. *)
Definition then_by {A} (first second : A → A → bool) (x y : A) : bool :=
  first x y && (negb (first y x) || second x y).

Definition by_season (nulls_first : bool) (r1 r2 : joined) : bool :=
  desc_le Z.leb nulls_first (season_year r1.1) (season_year r2.1).
Definition by_points (nulls_first : bool) (r1 r2 : joined) : bool :=
  desc_le Qle_bool nulls_first (points_per_game r1.1) (points_per_game r2.1).

(** [ORDER BY f.season_year DESC, f.points_per_game DESC] *)
Definition base_order (nulls_first : bool) : joined → joined → bool :=
  then_by (by_season nulls_first) (by_points nulls_first).

(** [ORDER BY value_over_replacement_player DESC] *)
Definition vorp_order (nulls_first : bool) (r1 r2 : joined) : bool :=
  desc_le Qle_bool nulls_first (a_col VORP r1) (a_col VORP r2).

(** The two orders as relations, for the sort.  Among rows that tie SQL
    fixes no order; the sort used here is one of the orders allowed. *)
Definition base_before (nulls_first : bool) : relation joined :=
  λ r1 r2, base_order nulls_first r1 r2 = true.
Definition vorp_before (nulls_first : bool) : relation joined :=
  λ r1 r2, vorp_order nulls_first r1 r2 = true.

Global Instance base_before_dec nulls_first : RelDecision (base_before nulls_first).
Proof. intros r1 r2. unfold base_before. apply _. Defined.
Global Instance vorp_before_dec nulls_first : RelDecision (vorp_before nulls_first).
Proof. intros r1 r2. unfold vorp_before. apply _. Defined.

(** A row of the overview's result: the sixteen selected columns. *)
Record overview_row := {
  o_season_year : option Z;
  o_player_name : option string;
  o_position : option string;
  o_team_code : option string;
  o_games_played : option Z;
  o_minutes_played : option Z;
  o_points_per_game : option Q;
  o_rebounds_per_game : option Q;
  o_assists_per_game : option Q;
  o_steals_per_game : option Q;
  o_blocks_per_game : option Q;
  o_player_efficiency_rating : option Q;
  o_true_shooting_pct : option Q;
  o_win_shares : option Q;
  o_box_plus_minus : option Q;
  o_value_over_replacement_player : option Q
}.

Definition select_overview (r : joined) : overview_row := {|
  o_season_year := season_year r.1;
  o_player_name := player_name r.1;
  o_position := position r.1;
  o_team_code := team_code r.1;
  o_games_played := games_played r.1;
  o_minutes_played := minutes_played r.1;
  o_points_per_game := points_per_game r.1;
  o_rebounds_per_game := rebounds_per_game r.1;
  o_assists_per_game := assists_per_game r.1;
  o_steals_per_game := steals_per_game r.1;
  o_blocks_per_game := blocks_per_game r.1;
  o_player_efficiency_rating := a_col PER r;
  o_true_shooting_pct := a_col TS_PCT r;
  o_win_shares := a_col WS r;
  o_box_plus_minus := a_col BPM r;
  o_value_over_replacement_player := a_col VORP r
|}.

(** The rows the overview's query returns for the conditions [flt]. *)
Definition overview_rows (nulls_first : bool) (flt : filters)
    (fact : list fact_row) (advanced : list advanced_row) : list overview_row :=
  select_overview <$>
    merge_sort (base_before nulls_first)
      (List.filter (where_clause flt) (left_join fact advanced)).

(** A row of the top performers' result: the eight selected columns. *)
Record top_row := {
  t_player_name : option string;
  t_season_year : option Z;
  t_points_per_game : option Q;
  t_rebounds_per_game : option Q;
  t_assists_per_game : option Q;
  t_player_efficiency_rating : option Q;
  t_win_shares : option Q;
  t_value_over_replacement_player : option Q
}.

Definition select_top (r : joined) : top_row := {|
  t_player_name := player_name r.1;
  t_season_year := season_year r.1;
  t_points_per_game := points_per_game r.1;
  t_rebounds_per_game := rebounds_per_game r.1;
  t_assists_per_game := assists_per_game r.1;
  t_player_efficiency_rating := a_col PER r;
  t_win_shares := a_col WS r;
  t_value_over_replacement_player := a_col VORP r
|}.

(** The rows of the top performers' query:
    [... ORDER BY value_over_replacement_player DESC LIMIT 20]. *)
Definition top_performers (nulls_first : bool)
    (fact : list fact_row) (advanced : list advanced_row) : list top_row :=
  take 20 (select_top <$>
             merge_sort (vorp_before nulls_first)
               (left_join fact advanced)).



(** *** The selectors of the sidebar *)

(** [ORDER BY x] (ascending) under the same setting: the NULLs are last
    where a descending order has them first. *)
Definition asc_le {A} (le : A → A → bool) (nulls_first : bool) (x y : option A)
  : bool :=
  desc_le (λ a b, le b a) (negb nulls_first) x y.

Definition season_desc (nulls_first : bool) : relation (option Z) :=
  λ x y, desc_le Z.leb nulls_first x y = true.
Definition name_asc (nulls_first : bool) : relation (option string) :=
  λ x y, asc_le String.leb nulls_first x y = true.

Global Instance season_desc_dec nulls_first : RelDecision (season_desc nulls_first).
Proof. intros x y. unfold season_desc. apply _. Defined.
Global Instance name_asc_dec nulls_first : RelDecision (name_asc nulls_first).
Proof. intros x y. unfold name_asc. apply _. Defined.

(** [get_seasons()]: [table] is what the cursor finds, the fact table or the
    exception raised on the way; the query is
    [SELECT DISTINCT season_year FROM fact_player_season ORDER BY season_year DESC],
    and an exception gives the empty list. *)
Definition get_seasons (nulls_first : bool) (table : result (list fact_row))
  : list (option Z) :=
  match table with
  | Return fact =>
      merge_sort (season_desc nulls_first) (remove_dups (season_year <$> fact))
  | Raise _ => []
  end.

(** [get_players()], in the same way, for
    [SELECT DISTINCT player_name FROM fact_player_season ORDER BY player_name]. *)
Definition get_players (nulls_first : bool) (table : result (list fact_row))
  : list (option string) :=
  match table with
  | Return fact =>
      merge_sort (name_asc nulls_first) (remove_dups (player_name <$> fact))
  | Raise _ => []
  end.

(** The order [sorted] puts names in; [None] has no order with a string. *)
Definition name_le : relation (option string) :=
  λ x y, match x, y with
         | Some a, Some b => String.le a b
         | _, _ => True
         end.

Global Instance name_le_dec : RelDecision name_le.
Proof. intros [a|] [b|]; simpl; apply _. Defined.

(** [sorted(players)]: with two or more elements every element is compared
    with another, and comparing [None] raises [TypeError]. *)
Definition py_sorted (players : list (option string))
  : result (list (option string)) :=
  if bool_decide (None ∈ players) && bool_decide (2 ≤ length players)
  then Raise "TypeError: '<' not supported between instances"
  else Return (merge_sort name_le players).

(** A season or a name as the Python value the selector holds. *)
Definition season_value (y : option Z) : value :=
  match y with Some n => PyInt n | None => PyNone end.
Definition name_value (p : option string) : value :=
  match p with Some n => PyStr n | None => PyNone end.

(** [options=["All"] + seasons] *)
Definition season_options (seasons : list (option Z)) : list value :=
  PyStr "All" :: (season_value <$> seasons).

(** [options=["All"] + sorted(players)] *)
Definition player_options (players : list (option string)) : result (list value) :=
  match py_sorted players with
  | Return sorted => Return (PyStr "All" :: (name_value <$> sorted))
  | Raise exn => Raise exn
  end.

(** *** The second tab: one player's seasons *)

(** The text the second tab executes, an f-string. *)
Definition player_query_text (selected_player : string) : string :=
  text_of_lines
    [
     "";
     "                SELECT ";
     "                    f.season_year,";
     "                    f.player_name,";
     "                    f.position,";
     "                    f.team_code,";
     "                    f.games_played,";
     "                    f.points_per_game,";
     "                    f.rebounds_per_game,";
     "                    f.assists_per_game,";
     "                    f.steals_per_game,";
     "                    f.blocks_per_game,";
     "                    a.PER as player_efficiency_rating,";
     "                    a.TS_PCT as true_shooting_pct,";
     "                    a.WS as win_shares,";
     "                    a.BPM as box_plus_minus";
     "                FROM fact_player_season f";
     "                LEFT JOIN fact_player_season_advanced a";
     "                    ON f.season_year = a.season_year ";
     "                    AND f.player_name = a.player_name";
     "                WHERE f.player_name = '" +:+ selected_player +:+ "'";
     "                ORDER BY f.season_year DESC";
     "            "
    ].



Definition season_before (nulls_first : bool) : relation joined :=
  λ r1 r2, by_season nulls_first r1 r2 = true.
Global Instance season_before_dec nulls_first : RelDecision (season_before nulls_first).
Proof. intros r1 r2. unfold season_before. apply _. Defined.

(** A name the texts carry as the string literal of that name: no quote,
    which would end the literal, and no backslash, which starts an escape. *)
Definition backslash : ascii := ascii_of_nat 92.
Definition plain_name (name : string) : bool :=
  negb (PyStr.has_char "'" name) && negb (PyStr.has_char backslash name).




(** *** The metrics of the first tab *)



End Dashboard.

(** * Properties *)

(** ** Python's [str.replace] *)

Section replace_facts.
Import PyStr.

Example replace_leftmost : replace "aa" "b" "aaaaa" = "bba".
Proof. reflexivity. Qed.

Example replace_no_rescan : replace "3P" "ThreeP" "33P%3PA" = "3ThreeP%ThreePA".
Proof. reflexivity. Qed.

Example replace_empty_pattern : replace "" "-" "ab" = "-a-b-".
Proof. reflexivity. Qed.

(** *** Equations of the scan *)

Lemma startswith_nil_r (p : string) :
  startswith p EmptyString = true → p = EmptyString.
Proof. by destruct p. Qed.

Lemma drop_str_nil (n : nat) : drop_str n EmptyString = EmptyString.
Proof. by destruct n. Qed.

Lemma drop_str_add (j k : nat) (s : string) :
  drop_str j (drop_str k s) = drop_str (k + j) s.
Proof.
  revert k; induction s as [|c s IH]; intros k.
  - by rewrite !drop_str_nil.
  - destruct k as [|k]; [done|]. simpl. apply IH.
Qed.

Lemma replace_scan_skip (old new : string) (k : nat) (s : string) :
  replace_scan old new k s = replace_scan old new 0 (drop_str k s).
Proof.
  revert k; induction s as [|c s IH]; intros k.
  - by rewrite drop_str_nil.
  - destruct k as [|k]; [done|]. simpl. apply IH.
Qed.

(** The scan as Python documents it: at an occurrence, emit [new] and go on
    after the occurrence; elsewhere copy one character. *)
Lemma replace_unfold (a : ascii) (old' new : string) (c : ascii) (s : string) :
  let old := String a old' in
  replace old new (String c s) =
    if startswith old (String c s)
    then new +:+ replace old new (drop_str (String.length old) (String c s))
    else String c (replace old new s).
Proof.
  simpl. destruct (Ascii.eqb a c); [|done].
  destruct (startswith old' s); [|done].
  by rewrite Nat.sub_0_r, replace_scan_skip.
Qed.

Lemma has_char_app (c : ascii) (s t : string) :
  has_char c (s +:+ t) = has_char c s || has_char c t.
Proof.
  induction s as [|b s IH]; simpl; [done|].
  by rewrite IH, orb_assoc.
Qed.

(** A pattern that mentions a character the text lacks does not occur. *)
Lemma startswith_has_char (c : ascii) (p s : string) :
  has_char c p = true → startswith p s = true → has_char c s = true.
Proof.
  revert s; induction p as [|a p IH]; intros s Hc Hp; [done|].
  destruct s as [|b s]; [done|]. simpl in *.
  destruct (Ascii.eqb_spec a b) as [->|]; [|done].
  destruct (Ascii.eqb c b); [done|]. simpl in *. by apply IH.
Qed.

Lemma occurs_has_char (c : ascii) (p s : string) :
  has_char c p = true → occurs p s = true → has_char c s = true.
Proof.
  intros Hc. induction s as [|b s IH]; simpl; intros Ho.
  - by apply startswith_nil_r in Ho; subst p.
  - apply orb_true_iff in Ho as [Hp|Ho].
    + by apply (startswith_has_char c) in Hp.
    + rewrite (IH Ho). apply orb_true_r.
Qed.

Lemma occurs_drop (p : string) (j : nat) (s : string) :
  startswith p (drop_str j s) = true → occurs p s = true.
Proof.
  revert j; induction s as [|b s IH]; intros j H.
  - by rewrite drop_str_nil in H.
  - destruct j as [|j]; simpl in *.
    + by rewrite H.
    + rewrite (IH _ H). apply orb_true_r.
Qed.

(** *** What [replace] leaves unchanged, keeps out and takes out *)

(** No occurrence, no change. *)
Lemma replace_scan_absent (old new s : string) :
  occurs old s = false → replace_scan old new 0 s = s.
Proof.
  induction s as [|c s IH]; simpl; [done|].
  intros [Hp Ho]%orb_false_iff. rewrite Hp. by rewrite IH.
Qed.

Lemma replace_absent (old new s : string) :
  old ≠ EmptyString → occurs old s = false → replace old new s = s.
Proof.
  destruct old; [done|]. intros _. apply replace_scan_absent.
Qed.

(** Every character of the result comes from the text or from [new]. *)
Lemma replace_scan_chars (c : ascii) (old new : string) (k : nat) (s : string) :
  has_char c s = false → has_char c new = false →
  has_char c (replace_scan old new k s) = false.
Proof.
  intros Hs Hn. revert k Hs; induction s as [|b s IH]; intros k; simpl; [done|].
  intros [Hb Hs]%orb_false_iff. destruct k as [|k]; [|by apply IH].
  destruct (startswith old (String b s)).
  - rewrite has_char_app, Hn. by apply IH.
  - simpl. rewrite Hb. by apply IH.
Qed.

Lemma replace_chars (c : ascii) (old new s : string) :
  old ≠ EmptyString → has_char c s = false → has_char c new = false →
  has_char c (replace old new s) = false.
Proof.
  destruct old; [done|]. intros _. apply replace_scan_chars.
Qed.

(** Replacing a single character by a text without it removes it. *)
Lemma replace_char_gone (c : ascii) (new s : string) :
  has_char c new = false →
  has_char c (replace (String c EmptyString) new s) = false.
Proof.
  intros Hn. unfold replace. induction s as [|b s IH]; simpl; [done|].
  destruct (Ascii.eqb c b) eqn:Hcb; simpl.
  - by rewrite has_char_app, Hn.
  - by rewrite Hcb.
Qed.


(** *** Two-character patterns *)

Lemma guarded_drop (old : string) (x y : ascii) (k : nat) (s : string) :
  guarded old x y s → guarded old x y (drop_str k s).
Proof. intros H j. rewrite drop_str_add. apply H. Qed.

Lemma guarded_self (x y : ascii) (s : string) :
  guarded (String x (String y EmptyString)) x y s.
Proof. by intros j. Qed.

Lemma guarded_absent (old : string) (x y : ascii) (s : string) :
  occurs (String x (String y EmptyString)) s = false → guarded old x y s.
Proof. intros Ho j Hj. apply occurs_drop in Hj. congruence. Qed.

Lemma occurs_app_fresh (x y : ascii) (new r : string) :
  has_char x new = false →
  occurs (String x (String y EmptyString)) (new +:+ r) =
  occurs (String x (String y EmptyString)) r.
Proof.
  induction new as [|b new IH]; simpl; [done|].
  intros [Hb Hn]%orb_false_iff. rewrite Hb. by apply IH.
Qed.

(** If [new] has no [x] and starts with a character other than [y], the
    result of the scan has no [x y]: none inside a copy of [new], none
    across its borders, and none in the copied text, where every [x y]
    started an occurrence that was replaced. *)
Lemma replace_scan_clears (old new' : string) (h x y : ascii) (k : nat) (s : string) :
  let new := String h new' in
  h ≠ y → has_char x new = false →
  guarded old x y (drop_str k s) →
  occurs (String x (String y EmptyString)) (replace_scan old new k s) = false
  ∧ (startswith (String y EmptyString) (replace_scan old new k s) = true →
     startswith (String y EmptyString) (drop_str k s) = true).
Proof.
  intros new Hh Hx. revert k; induction s as [|c s IH]; intros k Hg.
  - by rewrite drop_str_nil.
  - destruct k as [|k]; [|exact (IH k Hg)].
    cbn [replace_scan drop_str] in *.
    destruct (startswith old (String c s)) eqn:Hold.
    + split.
      * rewrite occurs_app_fresh by done.
        apply IH.
        exact (guarded_drop _ _ _ (S (String.length old - 1)) (String c s) Hg).
      * subst new. simpl. destruct (Ascii.eqb_spec y h); [congruence|done].
    + destruct (IH 0) as [IH1 IH2].
      { apply (guarded_drop _ _ _ 1 (String c s)), Hg. }
      split; [|done].
      cbn [occurs]. rewrite IH1, orb_false_r.
      cbn [startswith]. destruct (Ascii.eqb_spec x c) as [->|]; [|done].
      destruct (startswith (String y EmptyString) (replace_scan old new 0 s)) eqn:Hy;
        [|by destruct (replace_scan old new 0 s) as [|? ?]; cbn in *;
            [|destruct (Ascii.eqb y a)]].
      specialize (IH2 eq_refl). cbn [drop_str] in IH2.
      pose proof (Hg 0) as Hg0. cbn [drop_str startswith] in Hg0.
      rewrite Ascii.eqb_refl in Hg0.
      destruct s as [|d s]; [done|]. cbn [startswith] in IH2, Hg0.
      destruct (Ascii.eqb y d); [|done].
      rewrite Hg0 in Hold; done.
Qed.

Lemma replace_clears (old new' : string) (h x y : ascii) (s : string) :
  let new := String h new' in
  old ≠ EmptyString → h ≠ y → has_char x new = false →
  guarded old x y s →
  occurs (String x (String y EmptyString)) (replace old new s) = false.
Proof.
  intros new Ho Hh Hx Hg. destruct old; [done|].
  by apply (replace_scan_clears _ new' h x y 0 s).
Qed.

End replace_facts.

(** ** The loader's column names *)

Section column_names.
Import PyStr Pipeline.

(** Columns of the dataset, before and after. *)
Example clean_columns_dataset :
  clean_columns ["Player"; "TS%"; "3PAr"; "WS/48"; "3P%"; "2PA"; "eFG%"] =
    ["Player"; "TS_PCT"; "ThreePAr"; "WS_48"; "ThreeP_PCT"; "TwoPA"; "eFG_PCT"].
Proof. reflexivity. Qed.

(** The index column: its space is replaced by the first assignment, so the
    third one finds no ['Unnamed: 0'] to rename. *)
Example clean_column_unnamed : clean_column "Unnamed: 0" = "Unnamed:_0".
Proof. reflexivity. Qed.

Lemma occurs_single (c : ascii) (s : string) :
  occurs (String c EmptyString) s = has_char c s.
Proof.
  induction s as [|b s IH]; simpl; [done|].
  rewrite IH. by destruct (Ascii.eqb c b).
Qed.

Lemma replace_char_absent (c : ascii) (new s : string) :
  has_char c s = false → replace (String c EmptyString) new s = s.
Proof. intros H. apply replace_absent; [done|]. by rewrite occurs_single. Qed.

(** After the first assignment no space, [%] or [/] is left. *)
Lemma clean_symbols_chars (col : string) :
  has_char " " (clean_symbols col) = false
  ∧ has_char "%" (clean_symbols col) = false
  ∧ has_char "/" (clean_symbols col) = false.
Proof.
  unfold clean_symbols.
  pose proof (replace_char_gone " " "_" col eq_refl) as H1.
  pose proof (replace_char_gone "%" "_PCT" (replace " " "_" col) eq_refl) as H2.
  pose proof (replace_char_gone "/" "_"
                (replace "%" "_PCT" (replace " " "_" col)) eq_refl) as H3.
  split_and!; [|by apply replace_chars|done].
  apply replace_chars; [done| |done]. by apply replace_chars.
Qed.

(** The later assignments bring none of them back. *)
Lemma clean_tail_chars (c : ascii) (col : string) :
  has_char c "ThreePTwoPUnnamed_0" = false →
  has_char c col = false →
  has_char c (clean_unnamed (clean_digits col)) = false.
Proof.
  intros Hc H. unfold clean_unnamed, clean_digits.
  simpl in Hc. repeat (apply orb_false_iff in Hc as [? Hc]).
  repeat (apply replace_chars; [done| |]); try done; simpl;
    repeat (apply orb_false_iff; split; try done).
Qed.

Lemma clean_digits_patterns (col : string) :
  occurs "3P" (clean_digits col) = false ∧ occurs "2P" (clean_digits col) = false.
Proof.
  unfold clean_digits. split.
  - apply (replace_clears "2P" "woP" "T" "3" "P"); [done..|].
    apply guarded_absent.
    apply (replace_clears "3P" "hreeP" "T" "3" "P"); [done..|].
    apply guarded_self.
  - apply (replace_clears "2P" "woP" "T" "2" "P"); [done..|].
    apply guarded_self.
Qed.

Lemma clean_unnamed_id (col : string) :
  has_char " " col = false → clean_unnamed col = col.
Proof.
  intros H. apply replace_absent; [done|].
  destruct (occurs "Unnamed: 0" col) eqn:Ho; [|done].
  apply (occurs_has_char " ") in Ho; [congruence|done].
Qed.

Lemma clean_column_settled (col : string) : settled (clean_column col) = true.
Proof.
  destruct (clean_symbols_chars col) as (H1 & H2 & H3).
  destruct (clean_digits_patterns (clean_symbols col)) as [H4 H5].
  unfold settled, clean_column.
  rewrite !clean_tail_chars by done.
  rewrite clean_unnamed_id.
  - by rewrite H4, H5.
  - unfold clean_digits. apply replace_chars; [done| |done].
    by apply replace_chars.
Qed.

Lemma settled_fixed (col : string) :
  settled col = true → clean_column col = col.
Proof.
  unfold settled. rewrite !andb_true_iff, !negb_true_iff.
  intros ((((H1 & H2) & H3) & H4) & H5).
  unfold clean_column, clean_symbols, clean_digits.
  rewrite (replace_char_absent " " _ col) by done.
  rewrite (replace_char_absent "%" _ col) by done.
  rewrite (replace_char_absent "/" _ col) by done.
  rewrite (replace_absent "3P") by done.
  rewrite (replace_absent "2P") by done.
  by apply clean_unnamed_id.
Qed.

Lemma clean_columns_fmap (columns : list string) :
  clean_columns columns = clean_column <$> columns.
Proof.
  unfold clean_columns, clean_column. rewrite <-!list_fmap_compose. done.
Qed.

(** C3. The clean-up of the column names is idempotent: cleaning a cleaned
    name changes nothing, for one name and for the whole list of columns. *)
Theorem clean_column_idempotent (columns : list string) (col : string) :
  clean_column (clean_column col) = clean_column col
  ∧ clean_columns (clean_columns columns) = clean_columns columns.
Proof.
  assert (∀ c, clean_column (clean_column c) = clean_column c) as Hidem.
  { intros c. apply settled_fixed, clean_column_settled. }
  split; [apply Hidem|].
  rewrite !clean_columns_fmap, <-list_fmap_compose.
  apply list_fmap_ext. intros _ c _. apply Hidem.
Qed.

(** C4. No cleaned column name contains a space, a [%] or a [/]: for every
    source name, and so for every column of the list the loader writes. *)
Theorem clean_column_no_symbols (columns : list string) (col : string) :
  (has_char " " (clean_column col) = false
   ∧ has_char "%" (clean_column col) = false
   ∧ has_char "/" (clean_column col) = false)
  ∧ Forall (λ c, has_char " " c = false ∧ has_char "%" c = false
                 ∧ has_char "/" c = false) (clean_columns columns).
Proof.
  assert (∀ c, has_char " " (clean_column c) = false
               ∧ has_char "%" (clean_column c) = false
               ∧ has_char "/" (clean_column c) = false) as Hall.
  { intros c. pose proof (clean_column_settled c) as H. unfold settled in H.
    rewrite !andb_true_iff, !negb_true_iff in H. tauto. }
  split; [apply Hall|].
  rewrite clean_columns_fmap. apply Forall_fmap, Forall_forall.
  intros c _. apply Hall.
Qed.

(** C10. The clean-up is not injective: a name with a space and the same
    name with an underscore in its place are cleaned to one name, so a list
    of distinct source columns can become a list with a repeated column. *)
Theorem clean_column_not_injective :
  ¬ (∀ a b : string, clean_column a = clean_column b → a = b)
  ∧ (∃ a b : string,
        a ≠ b ∧ has_char " " a = true ∧ b = replace " " "_" a
        ∧ clean_column a = clean_column b
        ∧ NoDup [a; b] ∧ ¬ NoDup (clean_columns [a; b])).
Proof.
  assert (clean_column "WS 48" = clean_column "WS_48") as Heq by reflexivity.
  split.
  - intros Hinj. by specialize (Hinj _ _ Heq).
  - exists "WS 48", "WS_48". split_and!; try done.
    + apply NoDup_cons. split; [|apply NoDup_singleton].
      by intros ?%list_elem_of_singleton.
    + intros Hnd. apply NoDup_cons in Hnd as [Hnd _]. apply Hnd.
      vm_compute. apply list_elem_of_here.
Qed.

End column_names.

(** ** The readiness check *)

Section readiness.
Import Py Warehouse Pipeline.

(** What [verify_visualization_data] returns, from the two row counts. *)
Lemma verify_visualization_data_outcome (w : world) :
  (verify_visualization_data w).1 =
    if (0 <? count_rows (fact_player_season w))%Z
       && (0 <? count_rows (fact_player_season_advanced w))%Z
    then Return true
    else Raise "Visualization data not ready - tables are empty".
Proof.
  unfold verify_visualization_data, fetch_count, reading, execute, raise,
    mbind, M_bind, mret, M_ret. simpl.
  by destruct (_ && _).
Qed.

(** C1, counterexample. A fact table whose only row has a NULL player name,
    and an advanced table with one row: the distinct-player count is 0 and
    the check returns [True]. *)
Lemma readiness_ignores_player_count :
  let nameless := {| season_year := Some 2017%Z; player_name := None;
                     position := None; team_code := None; games_played := None;
                     minutes_played := None; points_per_game := None;
                     rebounds_per_game := None; assists_per_game := None;
                     steals_per_game := None; blocks_per_game := None |} in
  let advanced := {| adv_season_year := Some 2017%Z; adv_player_name := None;
                     PER := None; TS_PCT := None; WS := None; BPM := None;
                     VORP := None |} in
  let w := {| tmp_files := ∅; xcom := ∅; statements := [];
              raw_nba_stats := None;
              fact_player_season := [nameless];
              fact_player_season_advanced := [advanced] |} in
  (verify_visualization_data w).1 = Return true
  ∧ readiness_counts w = (1, 1, 0)%Z
  ∧ ¬ (0 < count_distinct_player_name (fact_player_season w))%Z.
Proof. split_and!; [reflexivity..|]. by vm_compute. Qed.

(** C1, amended. The check returns [True] exactly when both fact tables have
    a row; in every other case it raises the readiness error.  The
    distinct-player count is fetched and does not enter the decision. *)
Theorem readiness_iff_both_tables_nonempty (w : world) :
  let fact_count := count_rows (fact_player_season w) in
  let advanced_count := count_rows (fact_player_season_advanced w) in
  ((verify_visualization_data w).1 = Return true
     ↔ (0 < fact_count ∧ 0 < advanced_count)%Z)
  ∧ ((verify_visualization_data w).1 =
       Raise "Visualization data not ready - tables are empty"
     ↔ ¬ (0 < fact_count ∧ 0 < advanced_count)%Z).
Proof.
  intros fact_count advanced_count.
  rewrite verify_visualization_data_outcome.
  fold fact_count advanced_count.
  destruct (Z.ltb_spec 0 fact_count), (Z.ltb_spec 0 advanced_count); simpl;
    split; split; try done; try lia; intros []; lia.
Qed.

End readiness.

(** ** The task chain *)

Section task_chain.
Import Pipeline.

(** C2, counterexample. The DAG has eight tasks, and its first task has no
    predecessor. *)
Lemma dag_chain_has_eight_tasks :
  length (task_ids nba_pipeline_dag) = 8
  ∧ length (task_ids nba_pipeline_dag) ≠ 6
  ∧ extract ∈ task_ids nba_pipeline_dag
  ∧ length (upstream nba_pipeline_dag extract) = 0.
Proof. split_and!; [done|done| |done]. apply list_elem_of_here. Qed.

(** C2, amended. The DAG is one linear chain through its eight tasks: its
    edges are the neighbours of that order, every task but the first has
    exactly one predecessor and the first has none, every task but the last
    has exactly one successor; it is scheduled [@daily] with catch-up off. *)
Theorem dag_is_linear_chain_of_eight :
  let d := nba_pipeline_dag in
  let order := [extract; load; transform; verify_raw; print_raw_results_task;
                verify_transformed; print_transformed_results_task; verify_viz] in
  edges d = neighbours order
  ∧ order ≡ₚ task_ids d ∧ NoDup order ∧ length order = 8
  ∧ upstream d extract = []
  ∧ Forall (λ t, length (upstream d t) = 1) (tail order)
  ∧ downstream d verify_viz = []
  ∧ Forall (λ t, length (downstream d t) = 1) (removelast order)
  ∧ schedule d = "@daily" ∧ catchup d = false.
Proof.
  intros d order. split_and!; try reflexivity.
  - by apply (bool_decide_unpack _).
  - by apply (bool_decide_unpack _).
  - by apply (bool_decide_unpack _).
  - by apply (bool_decide_unpack _).
Qed.

End task_chain.

(** ** Retries *)

Section retries.
Import Pipeline Orchestrator.

(** The retry settings every task of the DAG runs with. *)
Lemma dag_retry_settings (t : string) :
  task_retries nba_pipeline_dag t = 2
  ∧ task_retry_delay nba_pipeline_dag t = 300%Z.
Proof. done. Qed.

(** The first task the run takes is the extraction. *)
Lemma first_ready_is_extract :
  List.find (ready nba_pipeline_dag []) (task_ids nba_pipeline_dag) = Some extract.
Proof. reflexivity. Qed.

(** A task whose every try fails makes one try and as many retries as its
    budget, each starting [delay] after the end of the try before, and ends
    in terminal failure. *)
Lemma run_task_always_failing (b : behaviour) (budget : nat) (delay : Z)
    (t : string) (try : nat) (start : Z) :
  (∀ n, succeeds b t n = false) →
  let '(log, ok, fin) := run_task b budget delay t try start in
  ok = false
  ∧ length log = S budget
  ∧ att_try <$> log = seq try (S budget)
  ∧ Forall (λ a, att_task a = t) log.
Proof.
  intros Hfail. revert try start.
  induction budget as [|budget IH]; intros try start; simpl; rewrite Hfail.
  - split_and!; try done. by repeat constructor.
  - specialize (IH (S try) (start + duration b t try + delay)%Z).
    destruct (run_task b budget delay t (S try) _) as [[log ok] fin].
    destruct IH as (-> & Hlen & Htries & Htask).
    split_and!; try done.
    + simpl. by rewrite Hlen.
    + by rewrite fmap_cons, Htries.
    + by constructor.
Qed.

(** C5. When every try of the extraction fails, the run makes the first try
    and exactly two retries, each retry starting five minutes after the try
    before it ended; the run is then failed, and no task but the extraction,
    the loader in particular, is ever started. *)
Theorem extract_failure_retries_twice (b : behaviour) (now : Z) :
  (∀ n, succeeds b extract n = false) →
  let run := run_dag nba_pipeline_dag b now in
  let d := duration b extract in
  let end1 := (now + d 1%nat)%Z in
  let end2 := (end1 + 300 + d 2%nat)%Z in
  let end3 := (end2 + 300 + d 3%nat)%Z in
  run.2 = RunFailed
  ∧ run.1 =
      [ {| att_task := extract; att_try := 1; att_start := now;
           att_end := end1; att_state := FailedRetrying |};
        {| att_task := extract; att_try := 2; att_start := (end1 + 300)%Z;
           att_end := end2; att_state := FailedRetrying |};
        {| att_task := extract; att_try := 3; att_start := (end2 + 300)%Z;
           att_end := end3; att_state := FailedTerminal |} ]
  ∧ length (List.filter (λ a, (1 <? att_try a)%nat) run.1) = 2
  ∧ load ∉ att_task <$> run.1.
Proof.
  intros Hfail run d end1 end2 end3.
  assert (run = ([ {| att_task := extract; att_try := 1; att_start := now;
                      att_end := end1; att_state := FailedRetrying |};
                   {| att_task := extract; att_try := 2;
                      att_start := (end1 + 300)%Z;
                      att_end := end2; att_state := FailedRetrying |};
                   {| att_task := extract; att_try := 3;
                      att_start := (end2 + 300)%Z;
                      att_end := end3; att_state := FailedTerminal |} ],
                 RunFailed)) as ->.
  { subst run. unfold run_dag.
    change (length (task_ids nba_pipeline_dag)) with 8.
    cbn [run_loop]. rewrite first_ready_is_extract.
    destruct (dag_retry_settings extract) as [-> ->].
    cbn [run_task]. by rewrite !Hfail. }
  split_and!; try done.
  by apply (bool_decide_unpack _).
Qed.

(** C5 at an extraction that fails at every try, each try taking ten
    seconds. *)
Lemma extract_failure_retries_twice_witness :
  let b := {| succeeds := λ t n, negb (String.eqb t extract);
              duration := λ t n, 10%Z |} in
  let run := run_dag nba_pipeline_dag b 0 in
  run.2 = RunFailed
  ∧ att_start <$> run.1 = [0; 310; 620]%Z
  ∧ load ∉ att_task <$> run.1.
Proof.
  intros b run.
  destruct (extract_failure_retries_twice b 0) as (Hst & Hlog & _ & Hload);
    [reflexivity|].
  split_and!; [exact Hst| |exact Hload].
  fold run in Hlog. by rewrite Hlog.
Defined.

End retries.

(** ** The extractor's file path *)

Section extract_path_facts.
Import Py Warehouse Pipeline.

Lemma digit_inj (a b : Z) : digit a = digit b → (a mod 10 = b mod 10)%Z.
Proof.
  unfold digit. intros H.
  assert (0 ≤ a mod 10 < 10 ∧ 0 ≤ b mod 10 < 10)%Z as [Ha Hb]
    by (split; apply Z.mod_pos_bound; lia).
  apply (f_equal nat_of_ascii) in H.
  rewrite !nat_ascii_embedding in H by lia. lia.
Qed.

Lemma pad2_inj (a b : Z) :
  (0 ≤ a < 100)%Z → (0 ≤ b < 100)%Z → pad2 a = pad2 b → a = b.
Proof.
  unfold pad2. intros Ha Hb [= H1%digit_inj H2%digit_inj].
  revert H1 H2. Z.div_mod_to_equations. lia.
Qed.

Lemma pad4_inj (a b : Z) :
  (0 ≤ a < 10000)%Z → (0 ≤ b < 10000)%Z → pad4 a = pad4 b → a = b.
Proof.
  unfold pad4, pad2.
  intros Ha Hb [= H1%digit_inj H2%digit_inj H3%digit_inj H4%digit_inj].
  revert H1 H2 H3 H4. Z.div_mod_to_equations. lia.
Qed.

(** The path keeps the clock reading up to the second, and nothing else. *)
Lemma extract_path_to_second (t1 t2 : datetime) :
  valid_datetime t1 → valid_datetime t2 →
  extract_path t1 = extract_path t2 ↔ to_second t1 = to_second t2.
Proof.
  intros V1 V2. split.
  - unfold extract_path, strftime_Ymd_HMS. simpl.
    unfold valid_datetime in *.
    intros [= Hy1 Hy2 Hy3 Hy4 Hm1 Hm2 Hd1 Hd2 Hh1 Hh2 Hi1 Hi2 Hs1 Hs2].
    unfold to_second.
    rewrite (pad4_inj (year t1) (year t2)) by (try lia; unfold pad4, pad2; congruence).
    rewrite (pad2_inj (month t1) (month t2)) by (try lia; unfold pad2; congruence).
    rewrite (pad2_inj (day t1) (day t2)) by (try lia; unfold pad2; congruence).
    rewrite (pad2_inj (hour t1) (hour t2)) by (try lia; unfold pad2; congruence).
    rewrite (pad2_inj (minute t1) (minute t2)) by (try lia; unfold pad2; congruence).
    rewrite (pad2_inj (second t1) (second t2)) by (try lia; unfold pad2; congruence).
    done.
  - unfold to_second, extract_path, strftime_Ymd_HMS. by intros [= -> -> -> -> -> ->].
Qed.

(** C9, counterexample. Two runs that read the clock within one second
    (here 250 microseconds apart) get one path, and the second run's file
    replaces the first's. *)
Lemma extract_same_second_same_path :
  let t1 := {| year := 2025; month := 3; day := 14; hour := 0; minute := 0;
               second := 7; microsecond := 100 |}%Z in
  let t2 := {| year := 2025; month := 3; day := 14; hour := 0; minute := 0;
               second := 7; microsecond := 350 |}%Z in
  let df1 := {| df_columns := ["Player"]; df_rows := [[Text "A"]] |} in
  let df2 := {| df_columns := ["Player"]; df_rows := [[Text "B"]] |} in
  let w := {| tmp_files := ∅; xcom := ∅; statements := []; raw_nba_stats := None;
              fact_player_season := []; fact_player_season_advanced := [] |} in
  let run1 := extract_kaggle_data (Return df1) t1 w in
  let run2 := extract_kaggle_data (Return df2) t2 run1.2 in
  (valid_datetime t1 ∧ valid_datetime t2 ∧ t1 ≠ t2)
  ∧ run1.1 = Return "/tmp/nba_stats_20250314_000007.csv"
  ∧ run2.1 = Return "/tmp/nba_stats_20250314_000007.csv"
  ∧ tmp_files run2.2 !! "/tmp/nba_stats_20250314_000007.csv" = Some df2.
Proof.
  split_and!; try reflexivity; try (unfold valid_datetime; simpl; lia).
  intros [=].
Qed.

(** C9, amended. The extractor writes the dataset to
    [/tmp/nba_stats_<YYYYmmdd_HHMMSS>.csv], stamped with the clock reading
    cut to whole seconds, and returns that path; two runs get the same path
    exactly when they read the clock within the same second. *)
Theorem extract_path_unique_per_second
    (df : dataframe) (now other : datetime) (w : world) :
  valid_datetime now → valid_datetime other →
  let run := extract_kaggle_data (Return df) now w in
  run.1 = Return (extract_path now)
  ∧ tmp_files run.2 !! extract_path now = Some df
  ∧ extract_path now = "/tmp/nba_stats_" +:+ strftime_Ymd_HMS now +:+ ".csv"
  ∧ (extract_path now = extract_path other ↔ to_second now = to_second other).
Proof.
  intros Vnow Vother run. split_and!; [done| |done|by apply extract_path_to_second].
  subst run. unfold extract_kaggle_data, outcome, to_csv, mbind, M_bind. simpl.
  apply lookup_insert_eq.
Qed.

(** C9, amended, at two runs five minutes apart. *)
Lemma extract_path_unique_per_second_witness :
  let now := {| year := 2025; month := 3; day := 14; hour := 0; minute := 0;
                second := 7; microsecond := 100 |}%Z in
  let other := {| year := 2025; month := 3; day := 14; hour := 0; minute := 5;
                  second := 7; microsecond := 100 |}%Z in
  let df := {| df_columns := ["Player"]; df_rows := [[Text "A"]] |} in
  let w := {| tmp_files := ∅; xcom := ∅; statements := []; raw_nba_stats := None;
              fact_player_season := []; fact_player_season_advanced := [] |} in
  let run := extract_kaggle_data (Return df) now w in
  run.1 = Return (extract_path now)
  ∧ tmp_files run.2 !! extract_path now = Some df
  ∧ extract_path now = "/tmp/nba_stats_" +:+ strftime_Ymd_HMS now +:+ ".csv"
  ∧ (extract_path now = extract_path other ↔ to_second now = to_second other).
Proof.
  intros now other df w.
  apply (extract_path_unique_per_second df now other w);
    unfold valid_datetime; simpl; lia.
Defined.

End extract_path_facts.

(** ** The loader and the bulk load's report *)

Section loader.
Import Py Warehouse Pipeline.

(** The dataframe the loader hands to [write_pandas]. *)
Lemma load_to_snowflake_run
    (write_pandas : dataframe → world → load_report * world)
    (now : datetime) (w : world) (path : string) (df : dataframe) :
  xcom w !! extract = Some (PyStr path) →
  tmp_files w !! path = Some df →
  let frame := assign_column "extraction_timestamp" (Stamp now)
                 (set_columns (clean_columns (df_columns df)) df) in
  let w' := {| tmp_files := tmp_files w; xcom := xcom w;
               statements := statements w ++
                 ["USE ROLE TRAINING_ROLE;"; "USE WAREHOUSE TRAINING_WH;";
                  "USE DATABASE MLDS430;";
                  "CREATE SCHEMA IF NOT EXISTS MARMOT_FINAL;";
                  "USE SCHEMA MARMOT_FINAL;"];
               raw_nba_stats := raw_nba_stats w;
               fact_player_season := fact_player_season w;
               fact_player_season_advanced := fact_player_season_advanced w |} in
  load_to_snowflake write_pandas now w =
    (if (write_pandas frame w').1.1.1 then Return ()
     else Raise "Failed to load data to Snowflake",
     (write_pandas frame w').2).
Proof.
  intros Hx Hf frame w'.
  unfold load_to_snowflake, xcom_pull, read_csv, execute, bulk_load, raise,
    done_ok, mbind, M_bind, mret, M_ret.
  unfold extract in Hx. rewrite Hx. simpl. rewrite Hf. simpl.
  rewrite <-!app_assoc. simpl. fold frame. fold w'.
  by destruct (write_pandas frame w') as [[[[] ?] ?] ?].
Qed.

(** C8. Once the loader has read the extracted file, its outcome is the bulk
    load's report on the cleaned dataframe: a report of failure makes it
    raise, a report of success lets it return normally. *)
Theorem load_raises_iff_bulk_load_fails
    (write_pandas : dataframe → world → load_report * world)
    (now : datetime) (w : world) (path : string) (df : dataframe) :
  xcom w !! extract = Some (PyStr path) →
  tmp_files w !! path = Some df →
  let frame := assign_column "extraction_timestamp" (Stamp now)
                 (set_columns (clean_columns (df_columns df)) df) in
  let w' := (load_session w) in
  let success := (write_pandas frame w').1.1.1 in
  ((load_to_snowflake write_pandas now w).1 =
     Raise "Failed to load data to Snowflake" ↔ success = false)
  ∧ ((load_to_snowflake write_pandas now w).1 = Return () ↔ success = true)
  ∧ (load_to_snowflake write_pandas now w).2 = (write_pandas frame w').2.
Proof.
  intros Hx Hf frame w' success.
  rewrite (load_to_snowflake_run write_pandas now w path df Hx Hf).
  fold frame. unfold load_session in w'. fold w'. subst success. simpl.
  by destruct (write_pandas frame w').1.1.1.
Qed.

(** C8 at a bulk load that reports failure. *)
Lemma load_raises_iff_bulk_load_fails_witness :
  let df := {| df_columns := ["Player"; "3P%"]; df_rows := [[Text "A"; Text ".4"]] |} in
  let path := "/tmp/nba_stats_20250314_000007.csv" in
  let w := {| tmp_files := {[ path := df ]}; xcom := {[ extract := PyStr path ]};
              statements := []; raw_nba_stats := None;
              fact_player_season := []; fact_player_season_advanced := [] |} in
  let now := {| year := 2025; month := 3; day := 14; hour := 0; minute := 1;
                second := 0; microsecond := 0 |}%Z in
  let write_pandas := λ (frame : dataframe) (w : world),
                        ((false, 0%Z, 0%Z) : load_report, w) in
  (load_to_snowflake write_pandas now w).1 = Raise "Failed to load data to Snowflake"
  ∧ (load_to_snowflake write_pandas now w).1 ≠ Return ().
Proof.
  intros df path w now write_pandas.
  destruct (load_raises_iff_bulk_load_fails write_pandas now w path df)
    as (Hfail & Hok & _); [reflexivity..|].
  split; [by apply Hfail|]. intros H%Hok. discriminate H.
Defined.

End loader.

(** ** The dashboard's queries *)

Section orders.
Import Py Warehouse Dashboard.

Lemma Qle_bool_total (a b : Q) : Qle_bool a b = true ∨ Qle_bool b a = true.
Proof.
  rewrite !Qle_bool_iff. destruct (Qlt_le_dec a b) as [H|H]; [left|by right].
  by apply Qlt_le_weak.
Qed.

Lemma Qle_bool_trans (a b c : Q) :
  Qle_bool a b = true → Qle_bool b c = true → Qle_bool a c = true.
Proof. rewrite !Qle_bool_iff. apply Qle_trans. Qed.

Lemma Zle_bool_total (a b : Z) : (a <=? b)%Z = true ∨ (b <=? a)%Z = true.
Proof. rewrite !Z.leb_le. lia. Qed.

Section desc.
Context {A : Type} (le : A → A → bool).
Hypothesis le_total : ∀ a b, le a b = true ∨ le b a = true.
Hypothesis le_trans : ∀ a b c, le a b = true → le b c = true → le a c = true.

Lemma desc_le_total (nulls_first : bool) (x y : option A) :
  desc_le le nulls_first x y = true ∨ desc_le le nulls_first y x = true.
Proof. destruct x, y, nulls_first; simpl; auto. Qed.

Lemma desc_le_trans (nulls_first : bool) (x y z : option A) :
  desc_le le nulls_first x y = true → desc_le le nulls_first y z = true →
  desc_le le nulls_first x z = true.
Proof. destruct x, y, z, nulls_first; simpl; eauto; discriminate. Qed.
End desc.

Section lexicographic.
Context {A : Type} (first second : A → A → bool).
Hypothesis first_total : ∀ x y, first x y = true ∨ first y x = true.
Hypothesis first_trans :
  ∀ x y z, first x y = true → first y z = true → first x z = true.
Hypothesis second_total : ∀ x y, second x y = true ∨ second y x = true.
Hypothesis second_trans :
  ∀ x y z, second x y = true → second y z = true → second x z = true.

Lemma then_by_total (x y : A) :
  then_by first second x y = true ∨ then_by first second y x = true.
Proof.
  unfold then_by.
  destruct (first x y) eqn:Hxy, (first y x) eqn:Hyx; simpl; auto.
  destruct (first_total x y); congruence.
Qed.

Lemma then_by_trans (x y z : A) :
  then_by first second x y = true → then_by first second y z = true →
  then_by first second x z = true.
Proof.
  unfold then_by. intros [Hxy Hs1]%andb_true_iff [Hyz Hs2]%andb_true_iff.
  rewrite (first_trans x y z Hxy Hyz). simpl.
  destruct (first z x) eqn:Hzx; [simpl|done].
  rewrite (first_trans z x y Hzx Hxy) in Hs2.
  rewrite (first_trans y z x Hyz Hzx) in Hs1. simpl in *. eauto.
Qed.

(** Where the first key ties, the order is the second key's. *)
Lemma then_by_tie (x y : A) :
  first y x = true → then_by first second x y = true → second x y = true.
Proof. unfold then_by. intros ->. simpl. by intros [_ ?]%andb_true_iff. Qed.
End lexicographic.

Global Instance base_before_total nulls_first : Total (base_before nulls_first).
Proof.
  intros r1 r2. apply then_by_total; intros; apply desc_le_total;
    auto using Zle_bool_total, Qle_bool_total.
Qed.

Global Instance base_before_trans nulls_first : Transitive (base_before nulls_first).
Proof.
  intros r1 r2 r3. apply then_by_trans; unfold by_season, by_points; intros ???;
    apply desc_le_trans; eauto using Zle_bool_trans, Qle_bool_trans.
Qed.

Global Instance vorp_before_total nulls_first : Total (vorp_before nulls_first).
Proof. intros r1 r2. apply desc_le_total, Qle_bool_total. Qed.

Global Instance vorp_before_trans nulls_first : Transitive (vorp_before nulls_first).
Proof.
  intros r1 r2 r3. apply desc_le_trans, Qle_bool_trans.
Qed.

(** A sorted list stays sorted for a relation that agrees on its elements. *)
Lemma StronglySorted_on {A} (P : A → Prop) (R R' : relation A) (l : list A) :
  (∀ x y, P x → P y → R x y → R' x y) →
  Forall P l → StronglySorted R l → StronglySorted R' l.
Proof.
  intros HR HP Hs. induction Hs as [|x l Hs IH Hx]; [constructor|].
  apply Forall_cons in HP as [Px HP]. constructor; [by apply IH|].
  rewrite Forall_forall in *. eauto.
Qed.

End orders.

Section overview_query.
Import Py Warehouse Dashboard.

Lemma append_cons (x : ascii) (a b : string) :
  String x a +:+ b = String x (a +:+ b).
Proof. reflexivity. Qed.

Lemma append_assoc (a b c : string) : (a +:+ b) +:+ c = a +:+ (b +:+ c).
Proof.
  induction a as [|x a IH]; [done|]. by rewrite !append_cons, IH.
Qed.

Lemma append_nil_r (a : string) : a +:+ EmptyString = a.
Proof.
  induction a as [|x a IH]; [done|]. by rewrite append_cons, IH.
Qed.

(** The text [build_query] returns is the base text, the conditions of the
    selection and the ordering. *)
Lemma build_query_text (selected_season : value) (selected_player : string)
    (flt : filters) :
  selected_filters selected_season selected_player = Some flt →
  build_query selected_season selected_player =
    base_query_text +:+ filters_text flt +:+ order_text.
Proof.
  unfold selected_filters, build_query, filters_text, order_text.
  intros H.
  destruct (decide (selected_season = PyStr "All")) as [->|Hs];
    destruct (decide (selected_player = "All")) as [->|Hp].
  - by simplify_option_eq.
  - rewrite (bool_decide_eq_true_2 (PyStr "All" = _)) in H by done.
    rewrite (bool_decide_eq_false_2 (selected_player = _)) in H by done.
    rewrite (bool_decide_eq_false_2 (PyStr "All" ≠ _)) by naive_solver.
    rewrite (bool_decide_eq_true_2 (selected_player ≠ _)) by done.
    destruct (PyStr.has_char _ _); simplify_option_eq.
    by rewrite !append_assoc.
  - rewrite (bool_decide_eq_false_2 (selected_season = _)) in H by done.
    rewrite (bool_decide_eq_true_2 ("All" = _)) in H by done.
    rewrite (bool_decide_eq_true_2 (selected_season ≠ _)) by done.
    rewrite (bool_decide_eq_false_2 ("All" ≠ _)) by naive_solver.
    destruct selected_season as [| |y|]; simplify_option_eq.
    by rewrite !append_assoc.
  - rewrite (bool_decide_eq_false_2 (selected_season = _)) in H by done.
    rewrite (bool_decide_eq_false_2 (selected_player = _)) in H by done.
    rewrite (bool_decide_eq_true_2 (selected_season ≠ _)) by done.
    rewrite (bool_decide_eq_true_2 (selected_player ≠ _)) by done.
    destruct selected_season as [| |y|]; try done.
    destruct (PyStr.has_char _ _); simplify_option_eq.
    by rewrite !append_assoc.
Qed.

Lemma sql_eq_true {A} `{EqDecision A} (x : option A) (a : A) :
  sql_eq x (Some a) = true ↔ x = Some a.
Proof.
  destruct x as [b|]; simpl; [|done].
  rewrite bool_decide_eq_true. naive_solver.
Qed.

(** What the conditions let through. *)
Lemma where_clause_true (flt : filters) (r : joined) :
  where_clause flt r = true ↔
    (∀ y, season_filter flt = Some y → season_year r.1 = Some y)
    ∧ (∀ p, player_filter flt = Some p → player_name r.1 = Some p).
Proof.
  unfold where_clause. rewrite !andb_true_iff.
  destruct (season_filter flt) as [y|], (player_filter flt) as [p|];
    rewrite ?sql_eq_true;
    (split; [intros [[_ Hs] Hp]|intros [Hs Hp]]);
    split_and?; intros; simplify_eq; eauto.
Qed.

(** The rows of the overview are the joined rows that pass the conditions,
    sorted by the query's order. *)
Lemma overview_rows_sorted (nulls_first : bool) (flt : filters)
    (fact : list fact_row) (advanced : list advanced_row) :
  ∃ sorted : list joined,
    overview_rows nulls_first flt fact advanced = select_overview <$> sorted
    ∧ sorted ≡ₚ List.filter (where_clause flt) (left_join fact advanced)
    ∧ StronglySorted (base_before nulls_first) sorted
    ∧ Forall (λ r, where_clause flt r = true) sorted.
Proof.
  eexists. split; [reflexivity|]. split_and!.
  - apply merge_sort_Permutation.
  - apply StronglySorted_merge_sort; apply _.
  - rewrite merge_sort_Permutation. apply Forall_forall.
    intros r Hr%list_elem_of_In%filter_In. tauto.
Qed.

(** C6. With season 2017 and player LeBron James selected, [build_query]
    returns the base text followed by the two conditions and the ordering;
    the rows of that query are the rows of the join with [season_year = 2017]
    and [player_name = 'LeBron James'], all of them and no others, in
    descending order of points per game. *)
Theorem build_query_lebron_2017 (nulls_first : bool)
    (fact : list fact_row) (advanced : list advanced_row) :
  let flt := {| season_filter := Some 2017%Z;
                player_filter := Some "LeBron James" |} in
  let rows := overview_rows nulls_first flt fact advanced in
  build_query (PyInt 2017) "LeBron James" =
    base_query_text
    +:+ " AND f.season_year = 2017 AND f.player_name = 'LeBron James'"
    +:+ " ORDER BY f.season_year DESC, f.points_per_game DESC"
  ∧ selected_filters (PyInt 2017) "LeBron James" = Some flt
  ∧ Forall (λ r, o_season_year r = Some 2017%Z
                 ∧ o_player_name r = Some "LeBron James") rows
  ∧ StronglySorted
      (λ r1 r2, desc_le Qle_bool nulls_first
                  (o_points_per_game r1) (o_points_per_game r2) = true) rows
  ∧ rows ≡ₚ select_overview <$>
              List.filter (λ r, sql_eq (season_year r.1) (Some 2017%Z)
                                && sql_eq (player_name r.1) (Some "LeBron James"))
                (left_join fact advanced).
Proof.
  intros flt rows.
  destruct (overview_rows_sorted nulls_first flt fact advanced)
    as (sorted & Hrows & Hperm & Hsorted & Hwhere).
  fold rows in Hrows. rewrite Hrows.
  assert (Forall (λ r : joined, season_year r.1 = Some 2017%Z
                                ∧ player_name r.1 = Some "LeBron James") sorted)
    as Hkeys.
  { eapply Forall_impl; [exact Hwhere|]. intros r [Hs Hp]%where_clause_true.
    split; [by apply Hs|by apply Hp]. }
  split_and!.
  - reflexivity.
  - reflexivity.
  - apply Forall_fmap. exact Hkeys.
  - apply (StronglySorted_fmap select_overview
             (λ r1 r2, by_points nulls_first r1 r2 = true)); [done|].
    apply (StronglySorted_on (λ r : joined, season_year r.1 = Some 2017%Z)
             (base_before nulls_first)); [| |done].
    2: { eapply Forall_impl; [exact Hkeys|]. by intros r [? _]. }
    intros r1 r2 H1 H2. apply then_by_tie.
    unfold by_season. rewrite H1, H2. by destruct nulls_first.
  - by rewrite Hperm.
Qed.

End overview_query.

Section top_performers_query.
Import Py Warehouse Dashboard.






(** The rows of the top performers are the first twenty of the joined rows
    sorted by the query's order. *)
Lemma top_performers_sorted (nulls_first : bool)
    (fact : list fact_row) (advanced : list advanced_row) :
  ∃ sorted : list joined,
    top_performers nulls_first fact advanced = select_top <$> take 20 sorted
    ∧ sorted ≡ₚ left_join fact advanced
    ∧ StronglySorted (vorp_before nulls_first) sorted.
Proof.
  eexists. split_and!.
  - unfold top_performers. by rewrite fmap_take.
  - apply merge_sort_Permutation.
  - apply StronglySorted_merge_sort; apply _.
Qed.

End top_performers_query.

(** * Further properties *)

(** ** Column names *)

Section column_names_more.
Import PyStr Pipeline.

(** X1. The third assignment never renames anything: whatever the source
    name, no ['Unnamed: 0'] is left for it after the first assignment has
    replaced the spaces.  The index column ends as [Unnamed:_0]. *)
Theorem clean_unnamed_never_fires (columns : list string) (col : string) :
  clean_column col = clean_digits (clean_symbols col)
  ∧ clean_columns columns = clean_digits <$> (clean_symbols <$> columns)
  ∧ clean_column "Unnamed: 0" = "Unnamed:_0".
Proof.
  assert (∀ c, clean_unnamed (clean_digits (clean_symbols c))
               = clean_digits (clean_symbols c)) as Hid.
  { intros c. apply clean_unnamed_id. unfold clean_digits.
    destruct (clean_symbols_chars c) as (H & _ & _).
    apply replace_chars; [done| |done]. by apply replace_chars. }
  split_and!; [apply Hid| |reflexivity].
  unfold clean_columns. rewrite <-!list_fmap_compose.
  apply list_fmap_ext. intros _ c _. apply Hid.
Qed.

(** X2. The clean-up leaves a column name as it is exactly when the name
    has no space, no [%], no [/], no [3P] and no [2P]. *)
Theorem clean_column_fixed_iff_settled (col : string) :
  clean_column col = col ↔ settled col = true.
Proof.
  split; [|apply settled_fixed].
  intros <-. apply clean_column_settled.
Qed.

End column_names_more.

(** ** The tasks and the world *)

Section task_effects.
Import Py Warehouse Pipeline.

(** X3. The extractor touches one file only.  A failed download is raised
    on as it is, with nothing written; a download that succeeds changes the
    file at the returned path and no other file, nothing in the inter-task
    channel and nothing in the warehouse. *)
Theorem extract_touches_one_file
    (exn : string) (df : dataframe) (now : datetime) (w : world) :
  let w' := (extract_kaggle_data (Return df) now w).2 in
  extract_kaggle_data (Raise exn) now w = (Raise exn, w)
  ∧ (∀ path, path ≠ extract_path now → tmp_files w' !! path = tmp_files w !! path)
  ∧ xcom w' = xcom w ∧ statements w' = statements w
  ∧ raw_nba_stats w' = raw_nba_stats w
  ∧ fact_player_season w' = fact_player_season w
  ∧ fact_player_season_advanced w' = fact_player_season_advanced w.
Proof.
  intros w'. split_and!; try reflexivity.
  intros path Hpath. subst w'.
  unfold extract_kaggle_data, outcome, to_csv, mbind, M_bind. simpl.
  by apply lookup_insert_ne.
Qed.

(** X4. Without its input the loader raises before it touches the
    warehouse: when the extractor's path is not in the inter-task channel,
    or no file is at that path, it raises (an error of [read_csv], not the
    load failure), executes no statement, and never calls the bulk load. *)
Theorem load_without_input_raises
    (write_pandas : dataframe → world → load_report * world)
    (now : datetime) (w : world) :
  xcom w !! extract = None
  ∨ (∃ path, xcom w !! extract = Some (PyStr path) ∧ tmp_files w !! path = None) →
  ∃ exn : string,
    load_to_snowflake write_pandas now w = (Raise exn, w)
    ∧ exn ≠ "Failed to load data to Snowflake".
Proof.
  unfold load_to_snowflake, xcom_pull, read_csv, mbind, M_bind, extract.
  intros [Hx|(path & Hx & Hf)]; rewrite Hx; simpl.
  - by eexists.
  - rewrite Hf. by eexists.
Qed.

(** X4 at a world in which the extractor has not run. *)
Lemma load_without_input_raises_witness :
  let w := {| tmp_files := ∅; xcom := ∅; statements := []; raw_nba_stats := None;
              fact_player_season := []; fact_player_season_advanced := [] |} in
  let now := {| year := 2025; month := 3; day := 14; hour := 0; minute := 1;
                second := 0; microsecond := 0 |}%Z in
  let write_pandas := λ (frame : dataframe) (w : world),
                        ((true, 1%Z, 1%Z) : load_report, w) in
  ∃ exn : string,
    load_to_snowflake write_pandas now w = (Raise exn, w)
    ∧ exn ≠ "Failed to load data to Snowflake".
Proof.
  intros w now write_pandas.
  apply (load_without_input_raises write_pandas now w). by left.
Defined.

(** [df[name] = v] keeps the number of rows, whatever the columns. *)
Lemma assign_column_rows (name : string) (v : cell) (df : dataframe) :
  length (df_rows (assign_column name v df)) = length (df_rows df).
Proof.
  unfold assign_column. case_bool_decide; simpl; by rewrite length_fmap.
Qed.

(** X5. What the loader hands to the bulk load: the rows of the file, as
    many as there were, under the cleaned column names; when no cleaned name
    is [extraction_timestamp], that column is added last and holds the
    load's clock reading in every row. *)
Theorem load_frame_shape
    (now : datetime) (w : world) (path : string) (df : dataframe) :
  xcom w !! extract = Some (PyStr path) →
  tmp_files w !! path = Some df →
  "extraction_timestamp" ∉ clean_columns (df_columns df) →
  ∃ frame : dataframe,
    (∀ write_pandas : dataframe → world → load_report * world,
        (load_to_snowflake write_pandas now w).2 =
          (write_pandas frame (load_session w)).2)
    ∧ df_columns frame = clean_columns (df_columns df) ++ ["extraction_timestamp"]
    ∧ df_rows frame = (λ row, row ++ [Stamp now]) <$> df_rows df
    ∧ length (df_rows frame) = length (df_rows df).
Proof.
  intros Hx Hf Hnew.
  exists (assign_column "extraction_timestamp" (Stamp now)
            (set_columns (clean_columns (df_columns df)) df)).
  split_and!.
  - intros write_pandas.
    by rewrite (load_to_snowflake_run write_pandas now w path df Hx Hf).
  - unfold assign_column. simpl. by rewrite bool_decide_eq_false_2.
  - unfold assign_column. simpl. by rewrite bool_decide_eq_false_2.
  - by rewrite assign_column_rows.
Qed.

(** X5 at a file of two columns and two rows. *)
Lemma load_frame_shape_witness :
  let df := {| df_columns := ["Player"; "3P%"];
               df_rows := [[Text "A"; Text ".4"]; [Text "B"; Text ".3"]] |} in
  let path := "/tmp/nba_stats_20250314_000007.csv" in
  let w := {| tmp_files := {[ path := df ]}; xcom := {[ extract := PyStr path ]};
              statements := []; raw_nba_stats := None;
              fact_player_season := []; fact_player_season_advanced := [] |} in
  let now := {| year := 2025; month := 3; day := 14; hour := 0; minute := 1;
                second := 0; microsecond := 0 |}%Z in
  ∃ frame : dataframe,
    (∀ write_pandas : dataframe → world → load_report * world,
        (load_to_snowflake write_pandas now w).2 =
          (write_pandas frame (load_session w)).2)
    ∧ df_columns frame = ["Player"; "ThreeP_PCT"; "extraction_timestamp"]
    ∧ df_rows frame = [[Text "A"; Text ".4"; Stamp now];
                       [Text "B"; Text ".3"; Stamp now]]
    ∧ length (df_rows frame) = 2.
Proof.
  intros df path w now.
  apply (load_frame_shape now w path df); [reflexivity|reflexivity|].
  apply (bool_decide_unpack _). by vm_compute.
Defined.

(** One step of a task body: a statement, then the rest. *)
Lemma execute_bind {B} (sql : string) (k : () → M B) (w : world) :
  (execute sql ≫= k) w = k () (execute sql w).2.
Proof. reflexivity. Qed.

Lemma fetch_count_bind {B} (sql : string) (answer : world → Z)
    (k : Z → M B) (w : world) :
  (fetch_count sql answer ≫= k) w =
    k (answer (execute sql w).2) (execute sql w).2.
Proof. reflexivity. Qed.

(** X6. The readiness check only reads: whether it returns or raises, the
    files, the inter-task channel and the three tables are as before, and
    the statements it executed are the four that set the session and the
    three counting queries, in that order. *)
Theorem verify_visualization_data_read_only (w : world) :
  let w' := (verify_visualization_data w).2 in
  tmp_files w' = tmp_files w ∧ xcom w' = xcom w
  ∧ raw_nba_stats w' = raw_nba_stats w
  ∧ fact_player_season w' = fact_player_season w
  ∧ fact_player_season_advanced w' = fact_player_season_advanced w
  ∧ statements w' = statements w ++
      ["USE ROLE TRAINING_ROLE;"; "USE WAREHOUSE TRAINING_WH;";
       "USE DATABASE MLDS430;"; "USE SCHEMA MARMOT_FINAL;";
       "SELECT COUNT(*) FROM fact_player_season;";
       "SELECT COUNT(*) FROM fact_player_season_advanced;";
       "SELECT COUNT(DISTINCT player_name) FROM fact_player_season;"].
Proof.
  intros w'. subst w'. unfold verify_visualization_data.
  rewrite !execute_bind, !fetch_count_bind.
  set (w7 := (execute "SELECT COUNT(DISTINCT player_name) FROM fact_player_season;" _).2).
  assert (∀ r : result bool * world,
            (r = (Return true, w7) ∨ ∃ exn, r = (Raise exn, w7)) → r.2 = w7)
    as Hend by (intros r [->|[? ->]]; done).
  rewrite (Hend _); [|destruct (_ && _); [by left|right; by eexists]].
  subst w7. cbn [execute snd tmp_files xcom raw_nba_stats fact_player_season
                 fact_player_season_advanced statements].
  split_and!; try done. by rewrite <-!app_assoc.
Qed.

End task_effects.

(** ** From the extractor to the loader *)

Section extract_then_load.
Import Py Warehouse Pipeline.



End extract_then_load.

(** ** Chains of [>>] *)

Section chains.
Import Pipeline.

Lemma foldl_rshift (acc : list (string * string)) (a : string) (rest : list string) :
  (foldl rshift (acc, a) rest).1 = acc ++ zip (a :: rest) rest.
Proof.
  revert acc a; induction rest as [|b rest IH]; intros acc a; simpl.
  - by rewrite app_nil_r.
  - unfold rshift at 2. simpl. rewrite IH. by rewrite <-app_assoc.
Qed.

Lemma filter_snd_length {A B} `{EqDecision B} (t : B) (es : list (A * B)) :
  length (filter (λ e, e.2 = t) es) = length (filter (λ x, x = t) es.*2).
Proof.
  induction es as [|e es IH]; [done|].
  rewrite fmap_cons, !filter_cons. simpl.
  destruct (decide (e.2 = t)); simpl; by rewrite IH.
Qed.

Lemma filter_eq_NoDup {A} `{EqDecision A} (t : A) (l : list A) :
  NoDup l →
  length (filter (λ x, x = t) l) = if decide (t ∈ l) then 1 else 0.
Proof.
  induction 1 as [|x l Hx Hnd IH]; [done|].
  rewrite filter_cons. destruct (decide (x = t)) as [->|Hne]; simpl.
  - rewrite IH. rewrite decide_False by done.
    rewrite decide_True by apply list_elem_of_here. done.
  - rewrite IH. destruct (decide (t ∈ l)) as [Hin|Hin].
    + rewrite decide_True by by apply list_elem_of_further. done.
    + rewrite decide_False; [done|].
      intros [?|?]%elem_of_cons; congruence.
Qed.

(** X9. What a chain [first >> t1 >> t2 >> ...] of distinct tasks builds,
    however long: the edges join each task to the next one, the first task
    has no predecessor and every other task has exactly one. *)
Theorem rshift_chain_one_predecessor
    (d : DAG) (first : string) (rest : list string) :
  edges d = rshift_chain first rest →
  NoDup (first :: rest) →
  edges d = neighbours (first :: rest)
  ∧ length (edges d) = length rest
  ∧ upstream d first = []
  ∧ Forall (λ t, length (upstream d t) = 1) rest.
Proof.
  intros Hedges [Hfirst Hnd]%NoDup_cons.
  assert (edges d = zip (first :: rest) rest) as Hzip.
  { rewrite Hedges. unfold rshift_chain. by rewrite foldl_rshift. }
  assert (∀ t, length (upstream d t) = if decide (t ∈ rest) then 1 else 0) as Hup.
  { intros t. unfold upstream.
    rewrite length_fmap, filter_snd_length, Hzip.
    rewrite snd_zip by (simpl; lia). by apply filter_eq_NoDup. }
  split_and!.
  - done.
  - rewrite Hzip, length_zip, length_cons. lia.
  - apply nil_length_inv. rewrite Hup. by rewrite decide_False.
  - apply Forall_forall. intros t Ht. rewrite Hup. by rewrite decide_True.
Qed.

(** X9 at the chain of the pipeline. *)
Lemma rshift_chain_one_predecessor_witness :
  upstream nba_pipeline_dag extract = []
  ∧ Forall (λ t, length (upstream nba_pipeline_dag t) = 1)
      [load; transform; verify_raw; print_raw_results_task;
       verify_transformed; print_transformed_results_task; verify_viz].
Proof.
  destruct (rshift_chain_one_predecessor nba_pipeline_dag extract
              [load; transform; verify_raw; print_raw_results_task;
               verify_transformed; print_transformed_results_task; verify_viz])
    as (_ & _ & Hfirst & Hrest); [reflexivity| |by split].
  apply (bool_decide_unpack _). by vm_compute.
Defined.

End chains.

(** ** The join and the overview *)

Section join_facts.
Import Py Warehouse Dashboard.

Lemma filter_nil_Forall {A} (f : A → bool) (l : list A) :
  List.filter f l = [] ↔ Forall (λ a, f a = false) l.
Proof.
  induction l as [|a l IH]; simpl; [by split; [constructor|]|].
  destruct (f a) eqn:Hfa; rewrite Forall_cons.
  - split; [done|]. intros [? _]. congruence.
  - rewrite IH. tauto.
Qed.

Lemma elem_of_List_filter {A} (f : A → bool) (a : A) (l : list A) :
  a ∈ List.filter f l ↔ a ∈ l ∧ f a = true.
Proof. by rewrite !list_elem_of_In, filter_In. Qed.

(** The rows a fact row gives in the join. *)
Lemma left_join_group (f : fact_row) (advanced : list advanced_row) (x : joined) :
  x ∈ match List.filter (on_key f) advanced with
      | [] => [(f, None)]
      | matches => (λ a, (f, Some a)) <$> matches
      end
  ↔ x.1 = f ∧ match x.2 with
               | Some a => a ∈ advanced ∧ on_key f a = true
               | None => Forall (λ a, on_key f a = false) advanced
               end.
Proof.
  destruct x as [f' [a|]]; cbn [fst snd].
  - rewrite <-elem_of_List_filter.
    destruct (List.filter (on_key f) advanced) as [|a0 matches].
    + rewrite list_elem_of_singleton. split; [done|].
      intros [_ Ha]. by apply not_elem_of_nil in Ha.
    + rewrite list_elem_of_fmap. split.
      * by intros (a' & [= -> ->] & Ha').
      * intros [-> Ha]. by exists a.
  - rewrite <-filter_nil_Forall.
    destruct (List.filter (on_key f) advanced) as [|a0 matches].
    + rewrite list_elem_of_singleton. split; [by intros [= ->]|by intros [-> _]].
    + rewrite list_elem_of_fmap. split; [by intros (a' & [=] & _)|by intros [_ [=]]].
Qed.

Lemma left_join_length_ge (fact : list fact_row) (advanced : list advanced_row) :
  length fact ≤ length (left_join fact advanced).
Proof.
  unfold left_join, joined. induction fact as [|f fact IH]; [done|].
  rewrite bind_cons, length_app, length_cons.
  destruct (List.filter (on_key f) advanced) as [|a matches];
    [|rewrite length_fmap]; cbn [length]; lia.
Qed.

(** X10. The left join loses no fact row and invents none: every fact row
    is in it at least once; it is paired with each advanced row whose season
    and name equal its own, and with NULLs exactly when no advanced row
    does, which is always so for a fact row whose season or name is NULL. *)
Theorem left_join_keeps_fact_rows
    (fact : list fact_row) (advanced : list advanced_row) :
  length fact ≤ length (left_join fact advanced)
  ∧ (∀ f, f ∈ (left_join fact advanced).*1 ↔ f ∈ fact)
  ∧ (∀ f a, (f, Some a) ∈ left_join fact advanced
            ↔ f ∈ fact ∧ a ∈ advanced
              ∧ season_year f = adv_season_year a ∧ is_Some (season_year f)
              ∧ player_name f = adv_player_name a ∧ is_Some (player_name f))
  ∧ (∀ f, (f, None) ∈ left_join fact advanced
          ↔ f ∈ fact ∧ Forall (λ a, on_key f a = false) advanced)
  ∧ (∀ f, f ∈ fact → season_year f = None ∨ player_name f = None →
          (f, None) ∈ left_join fact advanced).
Proof.
  assert (∀ x, x ∈ left_join fact advanced ↔
               x.1 ∈ fact ∧ match x.2 with
                 | Some a => a ∈ advanced ∧ on_key x.1 a = true
                 | None => Forall (λ a, on_key x.1 a = false) advanced
                 end) as Hin.
  { intros x. unfold left_join. rewrite list_elem_of_bind.
    setoid_rewrite left_join_group.
    split; [by intros (f & [<- Hx] & Hf)|intros [Hf Hx]; by exists x.1]. }
  assert (∀ f a, on_key f a = true ↔
                 season_year f = adv_season_year a ∧ is_Some (season_year f)
                 ∧ player_name f = adv_player_name a ∧ is_Some (player_name f))
    as Hkey.
  { intros f a. unfold on_key, sql_eq. rewrite andb_true_iff.
    destruct (season_year f), (adv_season_year a), (player_name f),
      (adv_player_name a); rewrite ?bool_decide_eq_true;
      (split; [intros [H1 H2]; try done; subst; by eauto
              |intros (H1 & [? H2] & H3 & [? H4]); by simplify_eq]). }
  split_and!.
  - apply left_join_length_ge.
  - intros f. rewrite list_elem_of_fmap. split.
    + intros (x & -> & Hx%Hin). tauto.
    + intros Hf.
      destruct (List.filter (on_key f) advanced) as [|a ?] eqn:Hm.
      * exists (f, None). split; [done|]. apply Hin. simpl.
        split; [done|]. by apply filter_nil_Forall.
      * exists (f, Some a). split; [done|]. apply Hin. simpl.
        split; [done|]. apply elem_of_List_filter. rewrite Hm. left.
  - intros f a. rewrite Hin. simpl. rewrite Hkey. tauto.
  - intros f. rewrite Hin. simpl. tauto.
  - intros f Hf Hnull. apply Hin. simpl. split; [done|].
    apply Forall_forall. intros a _.
    destruct (on_key f a) eqn:Hfa; [|done].
    apply Hkey in Hfa as (_ & [? Hs] & _ & [? Hp]).
    destruct Hnull; congruence.
Qed.

(** X11. For a selection the query text carries as written ("All" or an
    integer season, "All" or a plain name), the text [build_query] returns is
    the base text, the conditions of the selection and the ordering, and its
    rows are the rows of the join that meet each condition set, all of them
    and no others, by descending season and, within a season, by descending
    points per game; with "All" and "All" they are the whole join. *)
Theorem overview_rows_meet_filters (nulls_first : bool)
    (selected_season : value) (selected_player : string) (flt : filters)
    (fact : list fact_row) (advanced : list advanced_row) :
  selected_filters selected_season selected_player = Some flt →
  plain_name selected_player = true →
  let rows := overview_rows nulls_first flt fact advanced in
  build_query selected_season selected_player =
    base_query_text +:+ filters_text flt +:+ order_text
  ∧ Forall (λ r, (∀ y, selected_season = PyInt y → o_season_year r = Some y)
                 ∧ (selected_player ≠ "All" →
                    o_player_name r = Some selected_player))
      rows
  ∧ rows ≡ₚ select_overview <$>
              List.filter (where_clause flt) (left_join fact advanced)
  ∧ StronglySorted
      (λ r1 r2,
         then_by
           (λ r1 r2, desc_le Z.leb nulls_first (o_season_year r1) (o_season_year r2))
           (λ r1 r2, desc_le Qle_bool nulls_first
                       (o_points_per_game r1) (o_points_per_game r2))
           r1 r2 = true) rows
  ∧ (selected_season = PyStr "All" → selected_player = "All" →
     length rows = length (left_join fact advanced)
     ∧ length fact ≤ length rows).
Proof.
  intros Hflt Hplain rows.
  assert ((∀ y, selected_season = PyInt y → season_filter flt = Some y)
          ∧ (selected_player ≠ "All" → player_filter flt = Some selected_player)
          ∧ (selected_season = PyStr "All" → season_filter flt = None)
          ∧ (selected_player = "All" → player_filter flt = None))
    as (Hseason & Hplayer & Hall_s & Hall_p).
  { unfold selected_filters in Hflt.
    destruct (decide (selected_season = PyStr "All")) as [->|Hs];
      destruct (decide (selected_player = "All")) as [->|Hp].
    - simplify_option_eq. by split_and!.
    - rewrite (bool_decide_eq_true_2 (PyStr "All" = _)) in Hflt by done.
      rewrite (bool_decide_eq_false_2 (selected_player = _)) in Hflt by done.
      destruct (PyStr.has_char _ _); simplify_option_eq. by split_and!.
    - rewrite (bool_decide_eq_false_2 (selected_season = _)) in Hflt by done.
      rewrite (bool_decide_eq_true_2 ("All" = _)) in Hflt by done.
      destruct selected_season as [| |y|]; simplify_option_eq.
      split_and!; try done. by intros ? [= ->].
    - rewrite (bool_decide_eq_false_2 (selected_season = _)) in Hflt by done.
      rewrite (bool_decide_eq_false_2 (selected_player = _)) in Hflt by done.
      destruct selected_season as [| |y|]; try done.
      destruct (PyStr.has_char _ _); simplify_option_eq.
      split_and!; try done. by intros ? [= ->]. }
  destruct (overview_rows_sorted nulls_first flt fact advanced)
    as (sorted & Hrows & Hperm & Hsorted & Hwhere).
  fold rows in Hrows. rewrite Hrows. split_and!.
  - by apply build_query_text.
  - apply Forall_fmap. eapply Forall_impl; [exact Hwhere|].
    intros r [Hs Hp]%where_clause_true. split.
    + intros y Hy. by apply Hs, Hseason.
    + intros Hne. by apply Hp, Hplayer.
  - by rewrite Hperm.
  - by apply (StronglySorted_fmap select_overview (base_before nulls_first)).
  - intros Hs Hp. rewrite length_fmap, Hperm.
    assert (List.filter (where_clause flt) (left_join fact advanced)
            = left_join fact advanced) as ->.
    { apply forallb_filter_id, forallb_forall. intros r _.
      unfold where_clause. by rewrite (Hall_s Hs), (Hall_p Hp). }
    split; [done|]. apply left_join_length_ge.
Qed.

(** X11 at a season and a player selected. *)
Lemma overview_rows_meet_filters_witness :
  let season := λ (y : Z) (name : string),
      {| season_year := Some y; player_name := Some name;
         position := None; team_code := None; games_played := None;
         minutes_played := None; points_per_game := None;
         rebounds_per_game := None; assists_per_game := None;
         steals_per_game := None; blocks_per_game := None |} in
  let fact := [season 2016%Z "Kobe Bryant"; season 2017%Z "Kevin Durant";
               season 2016%Z "Kevin Durant"] in
  let flt := {| season_filter := Some 2016%Z;
                player_filter := Some "Kevin Durant" |} in
  let rows := overview_rows true flt fact [] in
  build_query (PyInt 2016) "Kevin Durant" =
    base_query_text +:+ filters_text flt +:+ order_text
  ∧ Forall (λ r, o_season_year r = Some 2016%Z
                 ∧ o_player_name r = Some "Kevin Durant") rows
  ∧ length rows = 1.
Proof.
  intros season fact flt rows.
  destruct (overview_rows_meet_filters true (PyInt 2016) "Kevin Durant" flt fact [])
    as (Htext & Hrows & _); [reflexivity|reflexivity|].
  split_and!; [exact Htext| |by vm_compute].
  eapply Forall_impl; [exact Hrows|]. intros r [Hs Hp].
  split; [by apply Hs|by apply Hp].
Defined.

End join_facts.

(** ** The name in the query text *)

Section query_text_facts.
Import PyStr Py Warehouse Dashboard.

Lemma count_char_app (c : ascii) (a b : string) :
  count_char c (a +:+ b) = count_char c a + count_char c b.
Proof.
  induction a as [|x a IH]; [done|].
  rewrite append_cons. cbn [count_char]. rewrite IH. lia.
Qed.

Lemma string_of_uint_no_quote (d : Decimal.uint) :
  count_char "'" (NilEmpty.string_of_uint d) = 0.
Proof. induction d; simpl; done. Qed.

Lemma str_of_int_no_quote (n : Z) : count_char "'" (str_of_int n) = 0.
Proof.
  unfold str_of_int, NilEmpty.string_of_int.
  destruct (Z.to_int n); [|cbn [count_char]; simpl];
    by rewrite string_of_uint_no_quote.
Qed.

(** X12. A selected name goes into the overview's query as it is, between
    two quotes and without escaping, right before the ordering; so the text
    has two quotes more than the name, an odd number when the name has one
    (as in O'Neal). *)
Theorem build_query_name_verbatim (selected_season : value) (selected_player : string) :
  selected_season = PyStr "All" ∨ (∃ y, selected_season = PyInt y) →
  selected_player ≠ "All" →
  (∃ before : string,
      build_query selected_season selected_player =
        before +:+ "'" +:+ selected_player +:+ "'" +:+ order_text)
  ∧ count_char "'" (build_query selected_season selected_player) =
      2 + count_char "'" selected_player.
Proof.
  intros Hseason Hplayer.
  set (conditions :=
         if bool_decide (selected_season ≠ PyStr "All")
         then base_query_text +:+ " AND f.season_year = " +:+ str selected_season
         else base_query_text).
  assert (build_query selected_season selected_player =
            (conditions +:+ " AND f.player_name = ")
            +:+ "'" +:+ selected_player +:+ "'" +:+ order_text) as Htext.
  { unfold build_query. cbv zeta. fold conditions.
    rewrite (bool_decide_eq_true_2 (selected_player ≠ _)) by done.
    by rewrite !append_assoc. }
  assert (count_char "'" conditions = 0) as Hcond.
  { subst conditions. destruct Hseason as [->|[y ->]].
    - by rewrite bool_decide_eq_false_2 by naive_solver.
    - rewrite bool_decide_eq_true_2 by done.
      rewrite !count_char_app. cbn [str]. by rewrite str_of_int_no_quote. }
  split; [by eexists|].
  rewrite Htext, !count_char_app, Hcond. cbn. lia.
Qed.

(** X12 at a name with a quote. *)
Lemma build_query_name_verbatim_witness :
  count_char "'" (build_query (PyInt 2000) "Shaquille O'Neal") = 3.
Proof.
  destruct (build_query_name_verbatim (PyInt 2000) "Shaquille O'Neal")
    as [_ Hcount]; [right; by eexists|done|].
  exact Hcount.
Defined.

End query_text_facts.

(** ** The top performers, whatever the keys *)

Section top_performers_more.
Import Py Warehouse Dashboard.

(** X13. The top performers' query never returns more than twenty rows: it
    returns twenty when the join has as many, and the whole join otherwise;
    with twenty fact rows or more it returns twenty. *)
Theorem top_performers_at_most_twenty (nulls_first : bool)
    (fact : list fact_row) (advanced : list advanced_row) :
  let rows := top_performers nulls_first fact advanced in
  length rows = 20 `min` length (left_join fact advanced)
  ∧ length rows ≤ 20
  ∧ 20 `min` length fact ≤ length rows.
Proof.
  intros rows.
  destruct (top_performers_sorted nulls_first fact advanced)
    as (sorted & Hrows & Hperm & _).
  fold rows in Hrows.
  assert (length rows = 20 `min` length (left_join fact advanced)) as Hlen.
  { by rewrite Hrows, length_fmap, length_take, Hperm. }
  pose proof (left_join_length_ge fact advanced). lia.
Qed.

Lemma filter_none {A} (P : A → Prop) `{∀ x, Decision (P x)} (l : list A) :
  Forall (λ x, ¬ P x) l → filter P l = [].
Proof.
  induction 1 as [|x l Hx Hl IH]; [done|].
  by rewrite filter_cons, decide_False.
Qed.

(** In an order with the NULLs first, no NULL comes after a value. *)
Lemma nulls_lead (l : list joined) (n : nat) :
  StronglySorted (vorp_before true) l →
  n ≤ length (filter (λ r, a_col VORP r = None) l) →
  Forall (λ r, a_col VORP r = None) (take n l).
Proof.
  intros Hs. revert n. induction Hs as [|x l Hs IH Hx]; intros n Hn.
  - by rewrite take_nil.
  - destruct n as [|n]; [constructor|]. simpl.
    rewrite filter_cons in Hn.
    destruct (decide (a_col VORP x = None)) as [Hnull|Hval].
    + constructor; [done|]. apply IH. simpl in Hn. lia.
    + exfalso. assert (filter (λ r, a_col VORP r = None) l = []) as Hnone.
      { apply filter_none. eapply Forall_impl; [exact Hx|].
        intros y Hxy Hy. unfold vorp_before, vorp_order in Hxy.
        rewrite Hy in Hxy. by destruct (a_col VORP x). }
      rewrite Hnone in Hn. simpl in Hn. lia.
Qed.

(** X14. Where descending order puts the NULLs first (Snowflake's default),
    the rows without a value over replacement come before every row with
    one: with twenty or more of them in the join, all twenty rows of the
    top performers have a NULL value over replacement. *)
Theorem top_performers_nulls_first (fact : list fact_row)
    (advanced : list advanced_row) :
  20 ≤ length (filter (λ r, a_col VORP r = None) (left_join fact advanced)) →
  length (top_performers true fact advanced) = 20
  ∧ Forall (λ r, t_value_over_replacement_player r = None)
      (top_performers true fact advanced).
Proof.
  intros Hnulls.
  destruct (top_performers_sorted true fact advanced)
    as (sorted & Hrows & Hperm & Hsorted).
  rewrite Hrows. rewrite <-Hperm in Hnulls. split.
  - rewrite length_fmap, length_take.
    pose proof (length_filter (λ r, a_col VORP r = None) sorted). lia.
  - apply Forall_fmap. by apply nulls_lead.
Qed.

(** X14 at twenty-one seasons of which one has advanced statistics: the
    season with a value is the one left out. *)
Lemma top_performers_nulls_first_witness :
  let fact := (λ i : nat,
      {| season_year := Some (2000 + Z.of_nat i)%Z;
         player_name := Some "LeBron James";
         position := None; team_code := None; games_played := None;
         minutes_played := None; points_per_game := None;
         rebounds_per_game := None; assists_per_game := None;
         steals_per_game := None; blocks_per_game := None |}) <$> seq 0 21 in
  let advanced :=
      [ {| adv_season_year := Some 2010%Z;
           adv_player_name := Some "LeBron James";
           PER := None; TS_PCT := None; WS := None; BPM := None;
           VORP := Some (inject_Z 10) |} ] in
  length (top_performers true fact advanced) = 20
  ∧ Forall (λ r, t_value_over_replacement_player r = None)
      (top_performers true fact advanced).
Proof.
  intros fact advanced.
  apply (top_performers_nulls_first fact advanced). by vm_compute.
Defined.




End top_performers_more.

(** ** One player's seasons *)

Section player_tab_facts.
Import Py Warehouse Dashboard.

Global Instance season_before_total nulls_first : Total (season_before nulls_first).
Proof. intros r1 r2. apply desc_le_total, Zle_bool_total. Qed.

Global Instance season_before_trans nulls_first :
  Transitive (season_before nulls_first).
Proof.
  intros r1 r2 r3. unfold season_before, by_season.
  apply desc_le_trans. intros a b c. apply Zle_bool_trans.
Qed.






End player_tab_facts.

(** ** The selectors and the metrics *)

Section selectors.
Import Py Warehouse Dashboard.

Global Instance season_desc_total nulls_first : Total (season_desc nulls_first).
Proof. intros x y. apply desc_le_total, Zle_bool_total. Qed.

Global Instance season_desc_trans nulls_first : Transitive (season_desc nulls_first).
Proof.
  intros x y z. apply desc_le_trans. intros a b c. apply Zle_bool_trans.
Qed.

Global Instance name_le_total : Total name_le.
Proof.
  intros [a|] [b|]; simpl; auto. apply (total String.le).
Qed.

(** X16. The season selector offers "All" first, then every season year of
    the fact table once, in descending order; when the query fails it
    offers "All" alone. *)
Theorem get_seasons_distinct_descending (nulls_first : bool)
    (fact : list fact_row) (exn : string) :
  let seasons := get_seasons nulls_first (Return fact) in
  NoDup seasons
  ∧ StronglySorted (season_desc nulls_first) seasons
  ∧ (∀ y, y ∈ seasons ↔ y ∈ season_year <$> fact)
  ∧ season_options seasons = PyStr "All" :: (season_value <$> seasons)
  ∧ season_options (get_seasons nulls_first (Raise exn)) = [PyStr "All"].
Proof.
  intros seasons. subst seasons. unfold get_seasons. split_and!.
  - rewrite merge_sort_Permutation. apply NoDup_remove_dups.
  - apply StronglySorted_merge_sort; apply _.
  - intros y. rewrite merge_sort_Permutation. apply elem_of_remove_dups.
  - reflexivity.
  - reflexivity.
Qed.

Lemma Forall_is_Some_fmap {A} (l : list (option A)) :
  Forall is_Some l → l = Some <$> omap id l.
Proof.
  induction 1 as [|x l [a ->] Hl IH]; [done|]. simpl. f_equal. exact IH.
Qed.

Lemma Sorted_name_le (names : list string) :
  Sorted name_le (Some <$> names) → StronglySorted String.le names.
Proof.
  intros Hs. apply Sorted_StronglySorted; [apply _|].
  induction names as [|a names IH]; [constructor|].
  rewrite fmap_cons in Hs. apply Sorted_inv in Hs as [Hs Hhd].
  constructor; [by apply IH|].
  destruct names as [|b names]; constructor.
  rewrite fmap_cons in Hhd. by apply HdRel_inv in Hhd.
Qed.

(** X17. The player selector.  When no name of the fact table is NULL it
    offers "All" first, then every name once, in ascending order.  When a
    name is NULL and another is not, sorting the names raises, outside any
    handler. *)
Theorem player_options_sorted_or_raises (nulls_first : bool)
    (fact : list fact_row) :
  let players := get_players nulls_first (Return fact) in
  (None ∉ player_name <$> fact →
     ∃ names : list string,
       player_options players = Return (PyStr "All" :: (PyStr <$> names))
       ∧ NoDup names ∧ StronglySorted String.le names
       ∧ ∀ n, n ∈ names ↔ Some n ∈ player_name <$> fact)
  ∧ (None ∈ player_name <$> fact →
     (∃ n, Some n ∈ player_name <$> fact) →
     ∃ exn, player_options players = Raise exn).
Proof.
  intros players.
  assert (players ≡ₚ remove_dups (player_name <$> fact)) as Hperm
    by apply merge_sort_Permutation.
  assert (∀ x, x ∈ players ↔ x ∈ player_name <$> fact) as Hin.
  { intros x. rewrite Hperm. apply elem_of_remove_dups. }
  assert (NoDup players) as Hnd.
  { rewrite Hperm. apply NoDup_remove_dups. }
  split.
  - intros Hnull. unfold player_options, py_sorted.
    rewrite bool_decide_eq_false_2 by by rewrite Hin. simpl.
    set (sorted := merge_sort name_le players).
    assert (sorted ≡ₚ players) as Hsorted by apply merge_sort_Permutation.
    assert (Forall is_Some sorted) as Hsome.
    { apply Forall_forall. intros [n|] Hn; [by eexists|].
      rewrite Hsorted, Hin in Hn. done. }
    assert (Sorted name_le sorted) as Hord by apply Sorted_merge_sort, _.
    apply Forall_is_Some_fmap in Hsome as Heq.
    set (names := omap id sorted) in *. clearbody names sorted. subst sorted.
    exists names. split_and!.
    + by rewrite <-list_fmap_compose.
    + apply (NoDup_fmap_1 Some). by rewrite Hsorted.
    + by apply Sorted_name_le.
    + intros n. rewrite <-Hin, <-Hsorted, list_elem_of_fmap.
      split; [by eexists|]. by intros (m & [= ->] & Hm).
  - intros Hnull [n Hn]. unfold player_options, py_sorted.
    rewrite bool_decide_eq_true_2 by by rewrite Hin.
    rewrite bool_decide_eq_true_2; [by eexists|].
    apply Hin in Hnull, Hn.
    destruct players as [|x [|y players]]; simpl; [|exfalso|lia].
    + by apply not_elem_of_nil in Hn.
    + apply list_elem_of_singleton in Hnull, Hn. congruence.
Qed.

(** A table with a named player and a row without a name. *)
Example player_options_null_and_named :
  let row := λ (name : option string),
      {| season_year := Some 2017%Z; player_name := name;
         position := None; team_code := None; games_played := None;
         minutes_played := None; points_per_game := None;
         rebounds_per_game := None; assists_per_game := None;
         steals_per_game := None; blocks_per_game := None |} in
  player_options (get_players true (Return [row (Some "LeBron James"); row None]))
    = Raise "TypeError: '<' not supported between instances"
  ∧ player_options (get_players true (Return [row (Some "B"); row (Some "A")]))
    = Return [PyStr "All"; PyStr "A"; PyStr "B"].
Proof. split; reflexivity. Qed.




End selectors.
